(** * The Allure-style HTML report generator of [generate_allure_report.py]

    A shallow embedding of the class [AllureReportGenerator]: the status
    tables, [format_duration], [get_statistics] and [generate_html], with the
    properties of the statistics, of the display order and of the rendered
    document.

    Python values are modelled as the code meets them.  A loaded JSON document
    is a [json] value; a [dict] is a [gmap] from strings (the order of its
    keys is not kept: the generator only looks keys up); a [str] is the
    [string] of its UTF-8 bytes, so that concatenation and equality of texts
    are those of their encodings; an [int] is a [Z]; a float is the exact
    dyadic value of a binary64; a Python exception is the [Raise] case of
    [result].  The clock is not read: [generate_html] takes the text of the
    generation time as its argument [now]. *)

From stdpp Require Import gmap strings list fin_maps pretty.
From Stdlib Require Import ZArith Lia SpecFloat.

Set Warnings "-register-all".
Local Open Scope Z_scope.

(** ** Exceptions *)

Inductive exn := AttributeError | TypeError | KeyError | OverflowError.

Inductive result (A : Type) :=
| Ok (a : A)
| Raise (e : exn).
Arguments Ok {A} a.
Arguments Raise {A} e.

#[global] Instance result_ret : MRet result := @Ok.
#[global] Instance result_bind : MBind result := λ A B f r,
  match r with Ok a => f a | Raise e => Raise e end.

(** ** Floats on the path of [format_duration]

    [format_duration] makes a float only from [duration_ms / 1000] with
    [1000 <= duration_ms], so every float it handles is finite and positive.
    Such a binary64 value is kept as the exact dyadic [mant * 2 ^ expo]. *)

Record double := Dbl { mant : Z; expo : Z }.

(** Quotient of [n] by [d] rounded to the nearest integer, ties to even. *)
Definition div_half_even (n d : Z) : Z :=
  let q := n / d in
  let r := n mod d in
  if 2 * r <? d then q
  else if d <? 2 * r then q + 1
  else if Z.even q then q else q + 1.

(** [a / b < 2 ^ k], for [0 < b] and any sign of [k]. *)
Definition ratio_ltb (a b k : Z) : bool :=
  a * 2 ^ Z.max 0 (- k) <? b * 2 ^ Z.max 0 k.

(** [floor (log2 (a / b))] for positive [a] and [b]. *)
Definition floor_log2_ratio (a b : Z) : Z :=
  let l := Z.log2 a - Z.log2 b in
  if ratio_ltb a b l then l - 1 else l.

(** IEEE 754 binary64 rounding (to nearest, ties to even) of the rational
    [a / b], [0 <= a], [0 < b]: 53 bits of precision, least exponent -1074;
    [None] when the rounded value leaves the finite range (infinity). *)
Definition round_to_double (a b : Z) : option double :=
  if a =? 0 then Some (Dbl 0 0)
  else
    let e := Z.max (floor_log2_ratio a b - 52) (-1074) in
    let m := div_half_even (a * 2 ^ Z.max 0 (- e)) (b * 2 ^ Z.max 0 e) in
    if 2 ^ 1024 <=? Z.shiftl m e then None else Some (Dbl m e).

(** [a / b] on ints: correctly rounded, [OverflowError] beyond the doubles. *)
Definition int_true_div (a b : Z) : result double :=
  match round_to_double a b with
  | Some x => Ok x
  | None => Raise OverflowError
  end.

(** [x < k] for a float [x] and an int [k]: an exact comparison. *)
Definition float_lt_int (x : double) (k : Z) : bool :=
  mant x * 2 ^ Z.max 0 (expo x) <? k * 2 ^ Z.max 0 (- expo x).

(** [int(x / k)]: the float quotient is rounded, and [int] of an infinite
    quotient raises [OverflowError]; a finite one is truncated. *)
Definition int_float_div (x : double) (k : Z) : result Z :=
  match round_to_double (mant x * 2 ^ Z.max 0 (expo x))
                        (k * 2 ^ Z.max 0 (- expo x)) with
  | Some q => Ok (Z.shiftl (mant q) (expo q))
  | None => Raise OverflowError
  end.

(** [x % k], [0 < k]: the remainder of a float division is exact. *)
Definition float_mod_int (x : double) (k : Z) : double :=
  if 0 <=? expo x then Dbl ((mant x * 2 ^ expo x) mod k) 0
  else Dbl (mant x mod (k * 2 ^ (- expo x))) (expo x).

(** Hundredths [h] written with two decimal places. *)
Definition fixed2 (h : Z) : string :=
  pretty (h / 100) +:+ "." +:+ pretty (h mod 100 / 10) +:+ pretty (h mod 10).

(** The hundredths printed by the format [.2f]: the exact binary value
    rounded to two decimals, ties to even. *)
Definition hundredths (x : double) : Z :=
  div_half_even (100 * mant x * 2 ^ Z.max 0 (expo x)) (2 ^ Z.max 0 (- expo x)).

Definition format_2f (x : double) : string := fixed2 (hundredths x).

(** A double of the finite range: non-negative here, and below [2 ^ 1024]. *)
Definition finite_double (x : double) : Prop :=
  0 ≤ mant x ∧ Z.shiftl (mant x) (expo x) < 2 ^ 1024.

(** The same operations in the IEEE 754 specification of the standard
    library ([SpecFloat], precision 53, [emax] 1024), to compare with. *)
Definition spec_of_int (n : Z) : spec_float := binary_normalize 53 1024 n 0 false.

Definition spec_of_double (x : option double) : spec_float :=
  match x with
  | None => S754_infinity false
  | Some (Dbl m e) =>
      match m with
      | Zpos p =>
          if m =? 2 ^ 53 then S754_finite false (Z.to_pos (2 ^ 52)) (e + 1)
          else S754_finite false p e
      | _ => S754_zero false
      end
  end.

Definition same_float (x y : spec_float) : bool :=
  match x, y with
  | S754_finite false m1 e1, S754_finite false m2 e2 =>
      (Zpos m1 =? Zpos m2) && (e1 =? e2)
  | S754_zero _, S754_zero _ => true
  | S754_infinity false, S754_infinity false => true
  | _, _ => false
  end.

(** [a / b] for ints that are doubles, and then [(a / b) / 60]. *)
Definition agrees_with_spec (a b : Z) : bool :=
  same_float (spec_of_double (round_to_double a b))
             (SFdiv 53 1024 (spec_of_int a) (spec_of_int b))
  && match round_to_double a b with
     | Some x =>
         same_float
           (spec_of_double
              (round_to_double (mant x * 2 ^ Z.max 0 (expo x))
                               (60 * 2 ^ Z.max 0 (- expo x))))
           (SFdiv 53 1024 (spec_of_double (Some x)) (spec_of_int 60))
     | None => true
     end.

(** ** [format_duration] *)

Definition format_duration (duration_ms : Z) : result string :=
  if duration_ms <? 1000 then Ok (pretty duration_ms +:+ "ms")
  else
    seconds ← int_true_div duration_ms 1000;
    if float_lt_int seconds 60 then Ok (format_2f seconds +:+ "s")
    else
      minutes ← int_float_div seconds 60;
      let seconds := float_mod_int seconds 60 in
      Ok (pretty minutes +:+ "m " +:+ format_2f seconds +:+ "s").

(** ** Loaded JSON documents

    What [json.load] returns.  Numbers are ints, as the timestamps of the
    result format are (milliseconds); a number written with a fraction or an
    exponent is outside this model. *)

Inductive json :=
| JNull
| JBool (b : bool)
| JInt (n : Z)
| JStr (s : string)
| JArr (xs : list json)
| JObj (kvs : gmap string json).

(** The double quote, for the texts of the template. *)
Definition dq : string :=
  String (Ascii.Ascii false true false false false true false false) EmptyString.

(** [v.get(k, d)]: only a dict has [get]. *)
Definition py_get (v : json) (k : string) (d : json) : result json :=
  match v with
  | JObj kvs => Ok (default d (kvs !! k))
  | _ => Raise AttributeError
  end.

(** [d[k]] on a dict of counters. *)
Definition py_item (d : gmap string Z) (k : string) : result Z :=
  match d !! k with
  | Some n => Ok n
  | None => Raise KeyError
  end.

(** [v == s] for a str literal [s]. *)
Definition py_eq_str (v : json) (s : string) : bool :=
  match v with
  | JStr t => bool_decide (t = s)
  | _ => false
  end.

(** Truth value of [v] in [if v:]. *)
Definition truthy (v : json) : bool :=
  match v with
  | JNull => false
  | JBool b => b
  | JInt n => negb (n =? 0)
  | JStr s => negb (bool_decide (s = EmptyString))
  | JArr xs => negb (bool_decide (length xs = 0%nat))
  | JObj kvs => negb (bool_decide (size kvs = 0%nat))
  end.

(** The operands of [-]: ints, and bools as the ints they are. *)
Definition py_int_operand (v : json) : result Z :=
  match v with
  | JInt n => Ok n
  | JBool b => Ok (if b then 1 else 0)
  | _ => Raise TypeError
  end.

Definition py_sub (a b : json) : result Z :=
  x ← py_int_operand a;
  y ← py_int_operand b;
  Ok (x - y).

(** The elements of [for x in v]: those of a list, the keys of a dict, the
    characters of a str (every loop of the renderer calls [get] on the
    element first, which a str lacks, so they are given bytewise); other
    values are not iterable. *)
Definition py_iter (v : json) : result (list json) :=
  match v with
  | JArr xs => Ok xs
  | JObj kvs => Ok ((λ kv, JStr kv.1) <$> map_to_list kvs)
  | JStr s => Ok ((λ c, JStr (String c EmptyString)) <$> String.list_ascii_of_string s)
  | _ => Raise TypeError
  end.

(** [k in d] followed by [d[k]] for a dict with str keys: a list or a dict
    is not hashable, any other value that is not a str is no key of [d]. *)
Definition py_find (d : gmap string string) (k : json) : result (option string) :=
  match k with
  | JStr s => Ok (d !! s)
  | JArr _ | JObj _ => Raise TypeError
  | _ => Ok None
  end.

(** The text appended by a loop whose body appends [body x] for each [x]. *)
Fixpoint for_html {A} (body : A → result string) (xs : list A) : result string :=
  match xs with
  | [] => Ok EmptyString
  | x :: xs' =>
      s ← body x;
      rest ← for_html body xs';
      Ok (s +:+ rest)
  end.

(** The same over [enumerate(xs)], counting from [idx]. *)
Fixpoint for_enum {A} (body : nat → A → result string) (idx : nat) (xs : list A)
  : result string :=
  match xs with
  | [] => Ok EmptyString
  | x :: xs' =>
      s ← body idx x;
      rest ← for_enum body (S idx) xs';
      Ok (s +:+ rest)
  end.

(** [sorted(l, key=key)]: the keys are computed first, then the list is
    sorted by key, elements of equal key keeping their order. *)
Fixpoint insert_by {A} (k : nat) (x : A) (l : list (nat * A)) : list (nat * A) :=
  match l with
  | [] => [(k, x)]
  | (k', y) :: l' =>
      if (k <=? k')%nat then (k, x) :: l else (k', y) :: insert_by k x l'
  end.

Definition stable_sort {A} (l : list (nat * A)) : list (nat * A) :=
  foldr (λ kx acc, insert_by kx.1 kx.2 acc) [] l.

Definition sorted {A} (key : A → result nat) (l : list A) : result (list A) :=
  ks ← mapM key l;
  Ok ((stable_sort (zip ks l)).*2).

(** [str.lower] on ASCII texts. *)
Definition ascii_lower_char (c : Ascii.ascii) : Ascii.ascii :=
  let n := Ascii.nat_of_ascii c in
  if ((65 <=? n) && (n <=? 90))%nat then Ascii.ascii_of_nat (n + 32) else c.

Fixpoint ascii_lower (s : string) : string :=
  match s with
  | EmptyString => EmptyString
  | String c s' => String (ascii_lower_char c) (ascii_lower s')
  end.

(** ** The texts of the template *)

(** The document up to the opening of the body (lines 90-397): a constant. *)
Definition document_head : string :=
  "<!DOCTYPE html>
<html lang=" +:+ dq +:+ "ru" +:+ dq +:+ ">
<head>
    <meta charset=" +:+ dq +:+ "UTF-8" +:+ dq +:+ ">
    <meta name=" +:+ dq +:+ "viewport" +:+ dq +:+ " content=" +:+ dq +:+ "width=device-width, initial-scale=1.0" +:+ dq +:+ ">
    <title>Allure Report - Test Results</title>
    <style>
        * {
            margin: 0;
            padding: 0;
            box-sizing: border-box;
        }
        
        body {
            font-family: 'Segoe UI', Tahoma, Geneva, Verdana, sans-serif;
            background: linear-gradient(135deg, #667eea 0%, #764ba2 100%);
            min-height: 100vh;
            padding: 20px;
        }
        
        .container {
            max-width: 1400px;
            margin: 0 auto;
            background: white;
            border-radius: 12px;
            box-shadow: 0 20px 60px rgba(0,0,0,0.3);
            overflow: hidden;
        }
        
        .header {
            background: linear-gradient(135deg, #667eea 0%, #764ba2 100%);
            color: white;
            padding: 30px 40px;
            display: flex;
            justify-content: space-between;
            align-items: center;
        }
        
        .header h1 {
            font-size: 32px;
            font-weight: 600;
            display: flex;
            align-items: center;
            gap: 15px;
        }
        
        .logo {
            width: 50px;
            height: 50px;
            background: white;
            border-radius: 10px;
            display: flex;
            align-items: center;
            justify-content: center;
            font-size: 28px;
        }
        
        .header-info {
            text-align: right;
            font-size: 14px;
            opacity: 0.9;
        }
        
        .stats {
            display: grid;
            grid-template-columns: repeat(auto-fit, minmax(200px, 1fr));
            gap: 20px;
            padding: 30px 40px;
            background: #f8f9fa;
            border-bottom: 1px solid #e0e0e0;
        }
        
        .stat-card {
            background: white;
            padding: 20px;
            border-radius: 10px;
            box-shadow: 0 2px 8px rgba(0,0,0,0.1);
            transition: transform 0.2s, box-shadow 0.2s;
        }
        
        .stat-card:hover {
            transform: translateY(-5px);
            box-shadow: 0 4px 16px rgba(0,0,0,0.15);
        }
        
        .stat-card h3 {
            font-size: 14px;
            color: #666;
            margin-bottom: 10px;
            text-transform: uppercase;
            letter-spacing: 1px;
        }
        
        .stat-value {
            font-size: 36px;
            font-weight: bold;
            display: flex;
            align-items: center;
            gap: 10px;
        }
        
        .stat-icon {
            font-size: 24px;
        }
        
        .tests-container {
            padding: 40px;
        }
        
        .test-card {
            background: white;
            border: 1px solid #e0e0e0;
            border-radius: 10px;
            margin-bottom: 20px;
            overflow: hidden;
            transition: all 0.3s;
        }
        
        .test-card:hover {
            box-shadow: 0 4px 12px rgba(0,0,0,0.1);
            border-color: #667eea;
        }
        
        .test-header {
            padding: 20px 25px;
            background: #fafafa;
            border-bottom: 1px solid #e0e0e0;
            cursor: pointer;
            display: flex;
            justify-content: space-between;
            align-items: center;
            transition: background 0.2s;
        }
        
        .test-header:hover {
            background: #f0f0f0;
        }
        
        .test-title {
            display: flex;
            align-items: center;
            gap: 15px;
            flex: 1;
        }
        
        .status-badge {
            width: 40px;
            height: 40px;
            border-radius: 50%;
            display: flex;
            align-items: center;
            justify-content: center;
            font-size: 20px;
            font-weight: bold;
            color: white;
        }
        
        .test-name {
            font-size: 16px;
            font-weight: 500;
            color: #333;
        }
        
        .test-meta {
            display: flex;
            gap: 20px;
            align-items: center;
            font-size: 14px;
            color: #666;
        }
        
        .duration {
            background: #e3f2fd;
            color: #1976d2;
            padding: 5px 12px;
            border-radius: 20px;
            font-weight: 500;
        }
        
        .test-body {
            padding: 25px;
            display: none;
            background: white;
        }
        
        .test-body.active {
            display: block;
            animation: slideDown 0.3s ease-out;
        }
        
        @keyframes slideDown {
            from {
                opacity: 0;
                transform: translateY(-10px);
            }
            to {
                opacity: 1;
                transform: translateY(0);
            }
        }
        
        .test-section {
            margin-bottom: 20px;
        }
        
        .test-section h4 {
            font-size: 14px;
            color: #667eea;
            margin-bottom: 10px;
            text-transform: uppercase;
            letter-spacing: 1px;
        }
        
        .test-steps {
            background: #f8f9fa;
            padding: 15px;
            border-radius: 8px;
            border-left: 4px solid #667eea;
        }
        
        .step {
            padding: 8px 0;
            color: #555;
            display: flex;
            align-items: center;
            gap: 10px;
        }
        
        .step-icon {
            color: #4caf50;
            font-weight: bold;
        }
        
        .attachment {
            background: #fff3cd;
            border: 1px solid #ffc107;
            padding: 15px;
            border-radius: 8px;
            margin-top: 10px;
        }
        
        .attachment-title {
            font-weight: 600;
            color: #856404;
            margin-bottom: 8px;
        }
        
        .attachment-content {
            background: white;
            padding: 12px;
            border-radius: 5px;
            font-family: 'Courier New', monospace;
            font-size: 13px;
            white-space: pre-wrap;
            max-height: 300px;
            overflow-y: auto;
            color: #333;
        }
        
        .error-message {
            background: #ffebee;
            border-left: 4px solid #f44336;
            padding: 15px;
            border-radius: 8px;
            color: #c62828;
            font-family: 'Courier New', monospace;
            font-size: 13px;
            white-space: pre-wrap;
        }
        
        .footer {
            background: #f8f9fa;
            padding: 20px 40px;
            text-align: center;
            color: #666;
            font-size: 14px;
            border-top: 1px solid #e0e0e0;
        }
        
        .expand-icon {
            transition: transform 0.3s;
            font-size: 20px;
            color: #999;
        }
        
        .expand-icon.active {
            transform: rotate(180deg);
        }
        
        .labels {
            display: flex;
            flex-wrap: wrap;
            gap: 8px;
            margin-top: 10px;
        }
        
        .label {
            background: #e3f2fd;
            color: #1976d2;
            padding: 4px 10px;
            border-radius: 15px;
            font-size: 12px;
            font-weight: 500;
        }
    </style>
</head>
<body>
".

(** The page header (lines 398-408) with the generation time and the total. *)
Definition header_block (now total : string) : string :=
  "    <div class=" +:+ dq +:+ "container" +:+ dq +:+ ">
        <div class=" +:+ dq +:+ "header" +:+ dq +:+ ">
            <h1>
                <div class=" +:+ dq +:+ "logo" +:+ dq +:+ ">📊</div>
                Allure Test Report
            </h1>
            <div class=" +:+ dq +:+ "header-info" +:+ dq +:+ ">
                <div>Сгенерировано: "
  +:+ now
  +:+ "</div>
                <div>Всего тестов: "
  +:+ total
  +:+ "</div>
            </div>
        </div>
        
".

(** The statistics summary (lines 409-450): five cards whose icons and colours are written in the template. *)
Definition stats_block (total passed failed skipped duration : string) : string :=
  "        <div class=" +:+ dq +:+ "stats" +:+ dq +:+ ">
            <div class=" +:+ dq +:+ "stat-card" +:+ dq +:+ ">
                <h3>Всего тестов</h3>
                <div class=" +:+ dq +:+ "stat-value" +:+ dq +:+ " style=" +:+ dq +:+ "color: #667eea;" +:+ dq +:+ ">
                    <span class=" +:+ dq +:+ "stat-icon" +:+ dq +:+ ">📝</span>
                    "
  +:+ total
  +:+ "
                </div>
            </div>
            
            <div class=" +:+ dq +:+ "stat-card" +:+ dq +:+ ">
                <h3>Успешно</h3>
                <div class=" +:+ dq +:+ "stat-value" +:+ dq +:+ " style=" +:+ dq +:+ "color: #4caf50;" +:+ dq +:+ ">
                    <span class=" +:+ dq +:+ "stat-icon" +:+ dq +:+ ">✓</span>
                    "
  +:+ passed
  +:+ "
                </div>
            </div>
            
            <div class=" +:+ dq +:+ "stat-card" +:+ dq +:+ ">
                <h3>Провалено</h3>
                <div class=" +:+ dq +:+ "stat-value" +:+ dq +:+ " style=" +:+ dq +:+ "color: #f44336;" +:+ dq +:+ ">
                    <span class=" +:+ dq +:+ "stat-icon" +:+ dq +:+ ">✗</span>
                    "
  +:+ failed
  +:+ "
                </div>
            </div>
            
            <div class=" +:+ dq +:+ "stat-card" +:+ dq +:+ ">
                <h3>Пропущено</h3>
                <div class=" +:+ dq +:+ "stat-value" +:+ dq +:+ " style=" +:+ dq +:+ "color: #9e9e9e;" +:+ dq +:+ ">
                    <span class=" +:+ dq +:+ "stat-icon" +:+ dq +:+ ">○</span>
                    "
  +:+ skipped
  +:+ "
                </div>
            </div>
            
            <div class=" +:+ dq +:+ "stat-card" +:+ dq +:+ ">
                <h3>Длительность</h3>
                <div class=" +:+ dq +:+ "stat-value" +:+ dq +:+ " style=" +:+ dq +:+ "color: #ff9800;" +:+ dq +:+ ">
                    <span class=" +:+ dq +:+ "stat-icon" +:+ dq +:+ ">⏱</span>
                    "
  +:+ duration
  +:+ "
                </div>
            </div>
        </div>
        
".

(** The opening of the results container (lines 451-452). *)
Definition tests_open : string :=
  "        <div class=" +:+ dq +:+ "tests-container" +:+ dq +:+ ">
            <h2 style=" +:+ dq +:+ "margin-bottom: 25px; color: #333; font-size: 24px;" +:+ dq +:+ ">Результаты тестов</h2>
".

(** The head of a test card (lines 476-494). *)
Definition card_head (idx color icon name full_name duration : string) : string :=
  "
            <div class=" +:+ dq +:+ "test-card" +:+ dq +:+ ">
                <div class=" +:+ dq +:+ "test-header" +:+ dq +:+ " onclick=" +:+ dq +:+ "toggleTest("
  +:+ idx
  +:+ ")" +:+ dq +:+ ">
                    <div class=" +:+ dq +:+ "test-title" +:+ dq +:+ ">
                        <div class=" +:+ dq +:+ "status-badge" +:+ dq +:+ " style=" +:+ dq +:+ "background-color: "
  +:+ color
  +:+ ";" +:+ dq +:+ ">
                            "
  +:+ icon
  +:+ "
                        </div>
                        <div>
                            <div class=" +:+ dq +:+ "test-name" +:+ dq +:+ ">"
  +:+ name
  +:+ "</div>
                            <div style=" +:+ dq +:+ "font-size: 12px; color: #999; margin-top: 5px;" +:+ dq +:+ ">"
  +:+ full_name
  +:+ "</div>
                        </div>
                    </div>
                    <div class=" +:+ dq +:+ "test-meta" +:+ dq +:+ ">
                        <span class=" +:+ dq +:+ "duration" +:+ dq +:+ ">"
  +:+ duration
  +:+ "</span>
                        <span class=" +:+ dq +:+ "expand-icon" +:+ dq +:+ " id=" +:+ dq +:+ "icon-"
  +:+ idx
  +:+ dq +:+ ">▼</span>
                    </div>
                </div>
                <div class=" +:+ dq +:+ "test-body" +:+ dq +:+ " id=" +:+ dq +:+ "body-"
  +:+ idx
  +:+ dq +:+ ">
".

(** Lines 498-502. *)
Definition labels_open : string :=
  "
                    <div class=" +:+ dq +:+ "test-section" +:+ dq +:+ ">
                        <h4>Метки</h4>
                        <div class=" +:+ dq +:+ "labels" +:+ dq +:+ ">
".

(** Line 506. *)
Definition label_span (label_name label_value : string) : string :=
  "<span class=" +:+ dq +:+ "label" +:+ dq +:+ ">"
  +:+ label_name
  +:+ ": "
  +:+ label_value
  +:+ "</span>".

(** Lines 507-510. *)
Definition labels_close : string :=
  "
                        </div>
                    </div>
".

(** Lines 514-518. *)
Definition steps_open : string :=
  "
                    <div class=" +:+ dq +:+ "test-section" +:+ dq +:+ ">
                        <h4>Шаги выполнения</h4>
                        <div class=" +:+ dq +:+ "test-steps" +:+ dq +:+ ">
".

(** Line 524. *)
Definition step_div (step_color step_icon step_name : string) : string :=
  "<div class=" +:+ dq +:+ "step" +:+ dq +:+ "><span class=" +:+ dq +:+ "step-icon" +:+ dq +:+ " style=" +:+ dq +:+ "color: "
  +:+ step_color
  +:+ ";" +:+ dq +:+ ">"
  +:+ step_icon
  +:+ "</span> "
  +:+ step_name
  +:+ "</div>".

(** Lines 525-528. *)
Definition steps_close : string :=
  "
                        </div>
                    </div>
".

(** Lines 532-535. *)
Definition error_open : string :=
  "
                    <div class=" +:+ dq +:+ "test-section" +:+ dq +:+ ">
                        <h4>Информация об ошибке</h4>
".

(** Line 537. *)
Definition error_message_div (error_message : string) : string :=
  "<div class=" +:+ dq +:+ "error-message" +:+ dq +:+ ">"
  +:+ error_message
  +:+ "</div>".

(** Line 539. *)
Definition error_trace_div (error_trace : string) : string :=
  "<div class=" +:+ dq +:+ "error-message" +:+ dq +:+ " style=" +:+ dq +:+ "margin-top: 10px;" +:+ dq +:+ ">"
  +:+ error_trace
  +:+ "</div>".

(** Lines 540-542. *)
Definition error_close : string :=
  "
                    </div>
".

(** Lines 546-549. *)
Definition attachments_open : string :=
  "
                    <div class=" +:+ dq +:+ "test-section" +:+ dq +:+ ">
                        <h4>Вложения</h4>
".

(** Lines 558-563. *)
Definition attachment_block (att_name content : string) : string :=
  "
                        <div class=" +:+ dq +:+ "attachment" +:+ dq +:+ ">
                            <div class=" +:+ dq +:+ "attachment-title" +:+ dq +:+ ">📎 "
  +:+ att_name
  +:+ "</div>
                            <div class=" +:+ dq +:+ "attachment-content" +:+ dq +:+ ">"
  +:+ content
  +:+ "</div>
                        </div>
".

(** Lines 564-566. *)
Definition attachments_close : string :=
  "
                    </div>
".

(** Lines 568-571. *)
Definition card_close : string :=
  "
                </div>
            </div>
".

(** Lines 573-593: the end of the container, the footer and the script. *)
Definition document_tail : string :=
  "
        </div>
        
        <div class=" +:+ dq +:+ "footer" +:+ dq +:+ ">
            <p>Отчет сгенерирован автоматически | PetStore API Testing Project</p>
            <p style=" +:+ dq +:+ "margin-top: 5px; font-size: 12px;" +:+ dq +:+ ">Powered by Allure Framework & Custom HTML Generator</p>
        </div>
    </div>
    
    <script>
        function toggleTest(index) {
            const body = document.getElementById('body-' + index);
            const icon = document.getElementById('icon-' + index);
            
            body.classList.toggle('active');
            icon.classList.toggle('active');
        }
    </script>
</body>
</html>
".

(** ** The generator *)

Record AllureReportGenerator := {
  results_dir : string;
  output_file : string;
  results : list json;
  containers : list json;
  attachments : gmap string string
}.

Definition colors : gmap string string :=
  list_to_map [("passed", "#4caf50"); ("failed", "#f44336"); ("broken", "#ff9800");
               ("skipped", "#9e9e9e"); ("unknown", "#607d8b")].

Definition icons : gmap string string :=
  list_to_map [("passed", "✓"); ("failed", "✗"); ("broken", "⚠");
               ("skipped", "○"); ("unknown", "?")].

Definition initial_stats : gmap string Z :=
  list_to_map [("passed", 0); ("failed", 0); ("broken", 0); ("skipped", 0);
               ("unknown", 0); ("total", 0)].

(** The key of the display order (lines 86-88). *)
Definition sort_key (x : json) : result nat :=
  status ← py_get x "status" JNull;
  Ok (if py_eq_str status "failed" then 0%nat
      else if py_eq_str status "broken" then 1%nat else 2%nat).

(** [r.get('stop', 0) - r.get('start', 0)]. *)
Definition duration_of (r : json) : result Z :=
  stop ← py_get r "stop" (JInt 0);
  start ← py_get r "start" (JInt 0);
  py_sub stop start.

(** [sum(r.get('stop', 0) - r.get('start', 0) for r in self.results)]. *)
Definition total_duration_of (rs : list json) : result Z :=
  durations ← mapM duration_of rs;
  Ok (foldl Z.add 0 durations).

Section Generator.

(** Two builtins are left open: [str.lower], which follows the Unicode case
    tables, and the text [str()] gives a list or a dict. *)
Variable str_lower : string → string.
Variable container_str : json → string.

(** [v.lower()]: only a str has [lower]. *)
Definition py_lower (v : json) : result string :=
  match v with
  | JStr s => Ok (str_lower s)
  | _ => Raise AttributeError
  end.

(** The text of [v] in an f-string. *)
Definition py_str (v : json) : string :=
  match v with
  | JNull => "None"
  | JBool true => "True"
  | JBool false => "False"
  | JInt n => pretty n
  | JStr s => s
  | _ => container_str v
  end.

Definition get_status_color (status : string) : string :=
  default "#607d8b" (colors !! str_lower status).

Definition get_status_icon (status : string) : string :=
  default "?" (icons !! str_lower status).

(** One turn of the loop of [get_statistics] (lines 75-77). *)
Definition count_result (stats : gmap string Z) (record : json)
  : result (gmap string Z) :=
  v ← py_get record "status" (JStr "unknown");
  status ← py_lower v;
  let stats := <[status := default 0 (stats !! status) + 1]> stats in
  total ← py_item stats "total";
  Ok (<["total" := total + 1]> stats).

Fixpoint count_results (stats : gmap string Z) (rs : list json)
  : result (gmap string Z) :=
  match rs with
  | [] => Ok stats
  | r :: rs' => stats' ← count_result stats r; count_results stats' rs'
  end.

Definition get_statistics (self : AllureReportGenerator) : result (gmap string Z) :=
  count_results initial_stats (results self).

(** The loops and blocks of a test card. *)
Definition render_label (label : json) : result string :=
  label_name ← py_get label "name" (JStr EmptyString);
  label_value ← py_get label "value" (JStr EmptyString);
  Ok (label_span (py_str label_name) (py_str label_value)).

Definition render_labels (labels : json) : result string :=
  if truthy labels then
    xs ← py_iter labels;
    body ← for_html render_label xs;
    Ok (labels_open +:+ body +:+ labels_close)
  else Ok EmptyString.

Definition render_step (step : json) : result string :=
  step_name ← py_get step "name" (JStr "Unknown Step");
  step_status ← py_get step "status" (JStr "passed");
  let step_icon := if py_eq_str step_status "passed" then "✓" else "✗" in
  let step_color := if py_eq_str step_status "passed" then "#4caf50" else "#f44336" in
  Ok (step_div step_color step_icon (py_str step_name)).

Definition render_steps (steps : json) : result string :=
  if truthy steps then
    xs ← py_iter steps;
    body ← for_html render_step xs;
    Ok (steps_open +:+ body +:+ steps_close)
  else Ok EmptyString.

Definition render_error (error_message error_trace : json) : string :=
  if truthy error_message || truthy error_trace then
    error_open
    +:+ (if truthy error_message then error_message_div (py_str error_message)
         else EmptyString)
    +:+ (if truthy error_trace then error_trace_div (py_str error_trace)
         else EmptyString)
    +:+ error_close
  else EmptyString.

Definition render_attachment (self : AllureReportGenerator) (attachment : json)
  : result string :=
  att_name ← py_get attachment "name" (JStr "Attachment");
  att_source ← py_get attachment "source" (JStr EmptyString);
  att_type ← py_get attachment "type" (JStr "text/plain");
  found ← py_find (attachments self) att_source;
  match found with
  | Some content => Ok (attachment_block (py_str att_name) content)
  | None => Ok EmptyString
  end.

Definition render_attachments (self : AllureReportGenerator) (atts : json)
  : result string :=
  if truthy atts then
    xs ← py_iter atts;
    body ← for_html (render_attachment self) xs;
    Ok (attachments_open +:+ body +:+ attachments_close)
  else Ok EmptyString.

(** One turn of the loop over the sorted results (lines 456-571). *)
Definition render_card (self : AllureReportGenerator) (idx : nat) (record : json)
  : result string :=
  v ← py_get record "status" (JStr "unknown");
  status ← py_lower v;
  name ← py_get record "name" (JStr "Unknown Test");
  full_name ← py_get record "fullName" name;
  duration ← duration_of record;
  steps ← py_get record "steps" (JArr []);
  labels ← py_get record "labels" (JArr []);
  atts ← py_get record "attachments" (JArr []);
  status_details ← py_get record "statusDetails" (JObj ∅);
  error_message ← py_get status_details "message" (JStr EmptyString);
  error_trace ← py_get status_details "trace" (JStr EmptyString);
  duration_text ← format_duration duration;
  labels_html ← render_labels labels;
  steps_html ← render_steps steps;
  atts_html ← render_attachments self atts;
  Ok (card_head (pretty idx) (get_status_color status) (get_status_icon status)
        (py_str name) (py_str full_name) duration_text
      +:+ labels_html +:+ steps_html
      +:+ render_error error_message error_trace
      +:+ atts_html +:+ card_close).

(** [generate_html]; [now] is the text of
    [datetime.now().strftime('%d.%m.%Y %H:%M:%S')]. *)
Definition generate_html (self : AllureReportGenerator) (now : string)
  : result string :=
  stats ← get_statistics self;
  total_duration ← total_duration_of (results self);
  sorted_results ← sorted sort_key (results self);
  total ← py_item stats "total";
  passed ← py_item stats "passed";
  failed ← py_item stats "failed";
  skipped ← py_item stats "skipped";
  duration_text ← format_duration total_duration;
  cards ← for_enum (render_card self) 0 sorted_results;
  Ok (document_head
      +:+ header_block now (pretty total)
      +:+ stats_block (pretty total) (pretty passed) (pretty failed)
            (pretty skipped) duration_text
      +:+ tests_open +:+ cards +:+ document_tail).

(** *** Notions used to state the properties *)

(** A record that [get_statistics] counts in a bucket of its own: a dict
    whose status, when present, is a str that does not lower-case to the
    key of the total. *)
Definition counts_in_bucket (r : json) : bool :=
  match r with
  | JObj kvs =>
      match default (JStr "unknown") (kvs !! "status") with
      | JStr s => negb (bool_decide (str_lower s = "total"))
      | _ => false
      end
  | _ => false
  end.

(** The text that the loop over the attachments adds for one entry whose
    source is a str or is missing. *)
Definition resolved_entry (self : AllureReportGenerator) (kvs : gmap string json)
  : string :=
  let source :=
    match kvs !! "source" with Some (JStr s) => s | _ => EmptyString end in
  match attachments self !! source with
  | Some content =>
      attachment_block (py_str (default (JStr "Attachment") (kvs !! "name"))) content
  | None => EmptyString
  end.

End Generator.

(** The sum of the counters of the status buckets: every key of the
    statistics but the total. *)
Definition bucket_sum (stats : gmap string Z) : Z :=
  map_fold (λ _ n acc, n + acc) 0 (delete "total" stats).

(** The status of a record is the str [s], compared as [sort_key] does. *)
Definition has_status (s : string) (kvs : gmap string json) : bool :=
  match kvs !! "status" with
  | Some v => py_eq_str v s
  | None => false
  end.

(** The three tiers of the display: failed, broken, the rest. *)
Definition tier_of (kvs : gmap string json) : nat :=
  if has_status "failed" kvs then 0%nat
  else if has_status "broken" kvs then 1%nat else 2%nat.

(** The texts of [l], one after the other. *)
Definition joined (l : list string) : string := foldr String.append EmptyString l.

(** [hay] starts with [needle]; [needle] occurs in [hay]. *)
Fixpoint starts_with (needle hay : string) : bool :=
  match needle with
  | EmptyString => true
  | String a needle' =>
      match hay with
      | EmptyString => false
      | String b hay' => bool_decide (a = b) && starts_with needle' hay'
      end
  end.

Fixpoint occurs (needle hay : string) : bool :=
  starts_with needle hay
  || match hay with
     | EmptyString => false
     | String _ hay' => occurs needle hay'
     end.

(** Shapes of the fields of a result record (section 3 of the format):
    every field may be missing; one that is present has its type. *)
Definition is_str (v : json) : bool :=
  match v with JStr _ => true | _ => false end.

Definition is_int (v : json) : bool :=
  match v with JInt _ => true | _ => false end.

Definition is_obj (v : json) : bool :=
  match v with JObj _ => true | _ => false end.

Definition list_of (p : json → bool) (v : json) : bool :=
  match v with JArr xs => forallb p xs | _ => false end.

Definition absent_or (p : json → bool) (kvs : gmap string json) (k : string) : bool :=
  match kvs !! k with Some v => p v | None => true end.

Definition wf_attachment (v : json) : bool :=
  match v with JObj kvs => absent_or is_str kvs "source" | _ => false end.

Definition wf_record (v : json) : bool :=
  match v with
  | JObj kvs =>
      absent_or is_str kvs "status"
      && absent_or is_int kvs "start" && absent_or is_int kvs "stop"
      && absent_or (list_of is_obj) kvs "steps"
      && absent_or (list_of is_obj) kvs "labels"
      && absent_or (list_of wf_attachment) kvs "attachments"
      && absent_or is_obj kvs "statusDetails"
  | _ => false
  end.

(** The duration of every record and their sum are below [2 ^ 1024]
    milliseconds, so that the division by 1000 stays a finite float. *)
Definition durations_in_range (rs : list json) : bool :=
  forallb (λ r, match duration_of r with Ok d => d <? 2 ^ 1024 | Raise _ => false end) rs
  && match total_duration_of rs with Ok d => d <? 2 ^ 1024 | Raise _ => false end.

(** Generators and records of the examples. *)
Definition gen_of (rs : list json) (atts : gmap string string)
  : AllureReportGenerator :=
  {| results_dir := "allure-results"; output_file := "allure_report.html";
     results := rs; containers := []; attachments := atts |}.

Definition with_status (s : string) : json := JObj {[ "status" := JStr s ]}.

Definition no_container_str (v : json) : string := EmptyString.

Definition noon : string := "01.01.2025 12:00:00".

(** Two attachment entries, the first with a source that the mapping
    [one_blob] holds. *)
Definition two_entries : list (gmap string json) :=
  [ {[ "name" := JStr "log"; "source" := JStr "a-attachment.txt" ]};
    {[ "source" := JStr "b-attachment.txt" ]} ].

Definition one_blob : gmap string string := {[ "a-attachment.txt" := "hello" ]}.

(** *** Notions for further properties of the statistics *)

Section StatisticsNotions.
Variable str_lower : string → string.

(** The key under which [get_statistics] counts a record; [None] for a
    record it cannot count: one that is no dict, or whose status is no str. *)
Definition status_key (r : json) : option string :=
  match r with
  | JObj kvs =>
      match default (JStr "unknown") (kvs !! "status") with
      | JStr s => Some (str_lower s)
      | _ => None
      end
  | _ => None
  end.

(** The number of records counted under the key [k]. *)
Definition count_key (k : string) (rs : list json) : Z :=
  Z.of_nat (length (filter (λ r, status_key r = Some k) rs)).
End StatisticsNotions.

(** *** Notions for further properties of the display order *)

(** Keys in non-decreasing order. *)
Fixpoint keys_sorted {A} (l : list (nat * A)) : Prop :=
  match l with
  | [] => True
  | p :: l' => Forall (λ q, (p.1 ≤ q.1)%nat) l' ∧ keys_sorted l'
  end.

(** *** Notions for the domain of the renderer *)


Definition is_num (v : json) : bool :=
  match v with JInt _ | JBool _ => true | _ => false end.




Definition returns {A} (r : result A) : bool :=
  match r with Ok _ => true | Raise _ => false end.



(** The document up to the cards, for given counts and duration text. *)
Definition document_top (now : string) (total passed failed skipped : Z)
    (duration_text : string) : string :=
  document_head
  +:+ header_block now (pretty total)
  +:+ stats_block (pretty total) (pretty passed) (pretty failed)
        (pretty skipped) duration_text
  +:+ tests_open.

(** *** Notions for the text fields of a record *)

(** The str held by an entry of a dict, if it is one. *)
Definition str_of (v : option json) : list string :=
  match v with Some (JStr s) => [s] | _ => [] end.

(** The strs under the key [k] of the dicts of a list. *)
Definition strs_under (k : string) (v : option json) : list string :=
  match v with
  | Some (JArr xs) =>
      x ← xs; match x with JObj d => str_of (d !! k) | _ => [] end
  | _ => []
  end.

(** The display texts of a record that are strs: its name and full name,
    the message and trace of its status details, the names and values of its
    labels and the names of its steps. *)
Definition text_fields (kvs : gmap string json) : list string :=
  str_of (kvs !! "name") ++ str_of (kvs !! "fullName")
  ++ match kvs !! "statusDetails" with
     | Some (JObj d) => str_of (d !! "message") ++ str_of (d !! "trace")
     | _ => []
     end
  ++ strs_under "name" (kvs !! "labels") ++ strs_under "value" (kvs !! "labels")
  ++ strs_under "name" (kvs !! "steps").

(** *** Notions for further properties of [format_duration] *)

(** The least duration whose division by 1000 leaves the doubles: its
    quotient lies half a unit in the last place above the greatest double,
    a tie that is rounded away from it. *)
Definition overflow_threshold : Z := 1000 * (2 ^ 1024 - 2 ^ 970).



(** *** Notions for the exceptions of the renderer *)

(** [r] is not a [KeyError]. *)
Definition no_key_error {A} (r : result A) : Prop := r ≠ Raise KeyError.

(** *** Notions for the first failure *)

(** The stop and the start of a result are numbers, where it has them. *)
Definition numeric_times (r : json) : bool :=
  match r with
  | JObj kvs =>
      is_num (default (JInt 0) (kvs !! "stop"))
      && is_num (default (JInt 0) (kvs !! "start"))
  | _ => false
  end.

(** *** Notions for the status tables *)

(** The statuses with a row of their own in both tables, the unknown one
    apart. *)
Definition known_statuses : list string := ["passed"; "failed"; "broken"; "skipped"].

(** *** Further examples *)

(** Results of the examples: three with a status each, two of them failed
    up to the case of the letters; and one whose name holds markup. *)
Definition three_results : list json :=
  [with_status "passed"; with_status "Failed"; with_status "failed"].

Definition three_results_sorted : list json :=
  [with_status "failed"; with_status "passed"; with_status "Failed"].

Definition markup_fields : gmap string json := {[ "name" := JStr "<b>bold</b>" ]}.

(** ** Rounding to a double *)

Lemma div_half_even_bounds n d :
  0 ≤ n → 0 < d → n / d ≤ div_half_even n d ≤ n / d + 1.
Proof.
  intros Hn Hd. unfold div_half_even.
  repeat case_match; lia.
Qed.

Lemma div_half_even_error n d :
  0 < d → - d ≤ 2 * (d * div_half_even n d - n) ≤ d.
Proof.
  intros Hd. unfold div_half_even.
  pose proof (Z.div_mod n d ltac:(lia)). pose proof (Z.mod_pos_bound n d Hd).
  repeat case_match; lia.
Qed.

Lemma div_half_even_tie n d :
  0 < d →
  2 * (d * div_half_even n d - n) = d ∨ 2 * (d * div_half_even n d - n) = - d →
  Z.even (div_half_even n d) = true.
Proof.
  intros Hd. unfold div_half_even.
  pose proof (Z.div_mod n d ltac:(lia)). pose proof (Z.mod_pos_bound n d Hd).
  destruct (Z.ltb_spec (2 * (n `mod` d)) d); [lia|].
  destruct (Z.ltb_spec d (2 * (n `mod` d))); [lia|].
  destruct (Z.even (n / d)) eqn:E; [done|].
  intros _. rewrite Z.even_add, E. done.
Qed.

(** The two shapes of [ratio_ltb], by the sign of the exponent. *)
Lemma ratio_ltb_nonneg a b k :
  0 ≤ k → ratio_ltb a b k = (a <? b * 2 ^ k).
Proof.
  intros Hk. unfold ratio_ltb.
  by rewrite Z.max_l, Z.max_r, Z.pow_0_r, Z.mul_1_r by lia.
Qed.

Lemma ratio_ltb_neg a b k :
  k ≤ 0 → ratio_ltb a b k = (a * 2 ^ (- k) <? b).
Proof.
  intros Hk. unfold ratio_ltb.
  by rewrite Z.max_r, Z.max_l, Z.pow_0_r, Z.mul_1_r by lia.
Qed.

Lemma pow2_pos k : 0 ≤ k → 0 < 2 ^ k.
Proof. intros. by apply Z.pow_pos_nonneg. Qed.

Lemma pow2_split k j : 0 ≤ k → 0 ≤ j → 2 ^ (k + j) = 2 ^ k * 2 ^ j.
Proof. intros. by apply Z.pow_add_r. Qed.

Lemma ratio_ltb_mono a b k k' :
  0 ≤ a → 0 < b → k ≤ k' → ratio_ltb a b k = true → ratio_ltb a b k' = true.
Proof.
  intros Ha Hb Hk H.
  destruct (Z.le_gt_cases 0 k) as [Hk0|Hk0].
  - rewrite ratio_ltb_nonneg in * by lia.
    apply Z.ltb_lt in H. apply Z.ltb_lt.
    replace k' with (k + (k' - k)) by lia. rewrite pow2_split by lia.
    pose proof (pow2_pos k Hk0). pose proof (pow2_pos (k' - k) ltac:(lia)).
    assert (b * 2 ^ k * 1 ≤ b * 2 ^ k * 2 ^ (k' - k))
      by (apply Z.mul_le_mono_nonneg_l; lia).
    lia.
  - rewrite ratio_ltb_neg in H by lia. apply Z.ltb_lt in H.
    destruct (Z.le_gt_cases 0 k') as [Hk0'|Hk0'].
    + rewrite ratio_ltb_nonneg by lia. apply Z.ltb_lt.
      pose proof (pow2_pos (- k) ltac:(lia)). pose proof (pow2_pos k' Hk0').
      assert (a * 1 ≤ a * 2 ^ (- k)) by (apply Z.mul_le_mono_nonneg_l; lia).
      assert (b * 1 ≤ b * 2 ^ k') by (apply Z.mul_le_mono_nonneg_l; lia).
      lia.
    + rewrite ratio_ltb_neg by lia. apply Z.ltb_lt.
      replace (- k) with (- k' + (k' - k)) in H by lia.
      rewrite pow2_split in H by lia.
      pose proof (pow2_pos (- k') ltac:(lia)). pose proof (pow2_pos (k' - k) ltac:(lia)).
      assert (a * 2 ^ (- k') * 1 ≤ a * 2 ^ (- k') * 2 ^ (k' - k))
        by (apply Z.mul_le_mono_nonneg_l; lia).
      lia.
Qed.

Lemma floor_log2_ratio_spec a b :
  0 < a → 0 < b →
  ratio_ltb a b (floor_log2_ratio a b) = false ∧
  ratio_ltb a b (floor_log2_ratio a b + 1) = true.
Proof.
  intros Ha Hb. unfold floor_log2_ratio.
  pose proof (Z.log2_spec a Ha) as [Ha1 Ha2].
  pose proof (Z.log2_spec b Hb) as [Hb1 Hb2].
  pose proof (Z.log2_nonneg a) as Hla. pose proof (Z.log2_nonneg b) as Hlb.
  generalize dependent (Z.log2 a). intros la Ha1 Ha2 Hla.
  generalize dependent (Z.log2 b). intros lb Hb1 Hb2 Hlb.
  rewrite <- Z.add_1_r in Ha2, Hb2.
  assert (Hup : ratio_ltb a b (la - lb + 1) = true).
  { destruct (Z.le_gt_cases 0 (la - lb + 1)) as [H|H].
    - rewrite ratio_ltb_nonneg by lia. apply Z.ltb_lt.
      replace (la + 1) with (lb + (la - lb + 1)) in Ha2 by lia.
      rewrite pow2_split in Ha2 by lia.
      pose proof (pow2_pos (la - lb + 1) H).
      assert (2 ^ lb * 2 ^ (la - lb + 1) ≤ b * 2 ^ (la - lb + 1))
        by (apply Z.mul_le_mono_nonneg_r; lia).
      lia.
    - rewrite ratio_ltb_neg by lia. apply Z.ltb_lt.
      pose proof (pow2_pos (- (la - lb + 1)) ltac:(lia)).
      assert (a * 2 ^ (- (la - lb + 1)) < 2 ^ (la + 1) * 2 ^ (- (la - lb + 1)))
        by (apply Z.mul_lt_mono_pos_r; lia).
      rewrite <- pow2_split in * by lia.
      replace (la + 1 + - (la - lb + 1)) with lb in * by lia. lia. }
  assert (Hlow : ratio_ltb a b (la - lb - 1) = false).
  { destruct (Z.le_gt_cases 0 (la - lb - 1)) as [H|H].
    - rewrite ratio_ltb_nonneg by lia. apply Z.ltb_ge.
      pose proof (pow2_pos (la - lb - 1) H).
      assert (b * 2 ^ (la - lb - 1) ≤ 2 ^ (lb + 1) * 2 ^ (la - lb - 1))
        by (apply Z.mul_le_mono_nonneg_r; lia).
      rewrite <- pow2_split in * by lia.
      replace (lb + 1 + (la - lb - 1)) with la in * by lia. lia.
    - rewrite ratio_ltb_neg by lia. apply Z.ltb_ge.
      pose proof (pow2_pos (- (la - lb - 1)) ltac:(lia)).
      assert (2 ^ la * 2 ^ (- (la - lb - 1)) ≤ a * 2 ^ (- (la - lb - 1)))
        by (apply Z.mul_le_mono_nonneg_r; lia).
      rewrite <- pow2_split in * by lia.
      replace (la + - (la - lb - 1)) with (lb + 1) in * by lia. lia. }
  destruct (ratio_ltb a b (la - lb)) eqn:E.
  - split; [done|]. by replace (la - lb - 1 + 1) with (la - lb) by lia.
  - done.
Qed.

Lemma scaled_lt a b e j :
  0 ≤ a → 0 < b → 0 ≤ j → ratio_ltb a b (e + j) = true →
  a * 2 ^ Z.max 0 (- e) < b * 2 ^ Z.max 0 e * 2 ^ j.
Proof.
  intros Ha Hb Hj H.
  destruct (Z.le_gt_cases 0 e) as [He|He].
  - rewrite ratio_ltb_nonneg in H by lia. apply Z.ltb_lt in H.
    rewrite Z.max_l, Z.max_r, Z.pow_0_r by lia.
    rewrite pow2_split in H by lia. lia.
  - rewrite Z.max_r, Z.max_l, Z.pow_0_r by lia.
    pose proof (pow2_pos (- e) ltac:(lia)).
    destruct (Z.le_gt_cases 0 (e + j)) as [Hej|Hej].
    + rewrite ratio_ltb_nonneg in H by lia. apply Z.ltb_lt in H.
      assert (a * 2 ^ (- e) < b * 2 ^ (e + j) * 2 ^ (- e))
        by (apply Z.mul_lt_mono_pos_r; lia).
      rewrite <- Z.mul_assoc, <- pow2_split in * by lia.
      replace (e + j + - e) with j in * by lia. lia.
    + rewrite ratio_ltb_neg in H by lia. apply Z.ltb_lt in H.
      pose proof (pow2_pos j Hj).
      assert (a * 2 ^ (- (e + j)) * 2 ^ j < b * 2 ^ j)
        by (apply Z.mul_lt_mono_pos_r; lia).
      rewrite <- Z.mul_assoc, <- pow2_split in * by lia.
      replace (- (e + j) + j) with (- e) in * by lia. lia.
Qed.

Lemma shiftl_small m e :
  0 ≤ m → m ≤ 2 ^ 53 → e ≤ 970 → Z.shiftl m e < 2 ^ 1024.
Proof.
  intros Hm Hm53 He.
  destruct (Z.le_gt_cases 0 e) as [He0|He0].
  - rewrite Z.shiftl_mul_pow2 by lia.
    pose proof (pow2_pos e He0).
    assert (m * 2 ^ e ≤ 2 ^ 53 * 2 ^ e) by (apply Z.mul_le_mono_nonneg_r; lia).
    rewrite <- pow2_split in * by lia.
    pose proof (Z.pow_le_mono_r 2 (53 + e) 1023 ltac:(lia) ltac:(lia)).
    assert (2 ^ 1023 < 2 ^ 1024) by (apply Z.pow_lt_mono_r; lia). lia.
  - rewrite Z.shiftl_div_pow2 by lia.
    pose proof (pow2_pos (- e) ltac:(lia)).
    assert (m / 2 ^ (- e) ≤ m) by (apply Z.div_le_upper_bound; nia).
    assert (2 ^ 53 < 2 ^ 1024) by (apply Z.pow_lt_mono_r; lia). lia.
Qed.

Lemma round_to_double_finite a b :
  0 ≤ a → 0 < b → ratio_ltb a b 1023 = true →
  ∃ x, round_to_double a b = Some x ∧ finite_double x.
Proof.
  intros Ha Hb Hlt. unfold round_to_double.
  destruct (a =? 0) eqn:Ea.
  { eexists. split; [done|]. split; simpl; [lia|].
    rewrite Z.shiftl_0_l. by apply pow2_pos. }
  apply Z.eqb_neq in Ea.
  destruct (floor_log2_ratio_spec a b ltac:(lia) Hb) as [Hlo Hup].
  set (l := floor_log2_ratio a b) in *.
  assert (l ≤ 1022) as Hl.
  { destruct (Z.le_gt_cases 1023 l) as [H|H]; [|lia].
    rewrite (ratio_ltb_mono a b 1023 l) in Hlo; done. }
  set (e := Z.max (l - 52) (-1074)).
  assert (ratio_ltb a b (e + 53) = true) as He
    by (apply (ratio_ltb_mono a b (l + 1)); [done..|lia|done]).
  apply scaled_lt in He; [|lia..].
  set (n := a * 2 ^ Z.max 0 (- e)) in *. set (d := b * 2 ^ Z.max 0 e) in *.
  assert (0 ≤ n) by (pose proof (pow2_pos (Z.max 0 (- e)) ltac:(lia)); subst n; nia).
  assert (0 < d) by (pose proof (pow2_pos (Z.max 0 e) ltac:(lia)); subst d; nia).
  pose proof (div_half_even_bounds n d ltac:(done) ltac:(done)) as [Hm1 Hm2].
  assert (n / d < 2 ^ 53) by (apply Z.div_lt_upper_bound; lia).
  assert (0 ≤ n / d) by (apply Z.div_pos; lia).
  pose proof (shiftl_small (div_half_even n d) e ltac:(lia) ltac:(lia) ltac:(lia)).
  destruct (2 ^ 1024 <=? _) eqn:Eo; [apply Z.leb_le in Eo; lia|].
  eexists. split; [done|]. split; simpl; [lia|done].
Qed.

Lemma int_true_div_finite ms :
  0 ≤ ms < 2 ^ 1024 → ∃ x, int_true_div ms 1000 = Ok x ∧ finite_double x.
Proof.
  intros [H0 H1]. unfold int_true_div.
  destruct (round_to_double_finite ms 1000) as (x & -> & Hx); [lia..| |by eauto].
  rewrite ratio_ltb_nonneg by lia. apply Z.ltb_lt.
  change (2 ^ 1024) with (2 * 2 ^ 1023) in H1.
  pose proof (pow2_pos 1023 ltac:(lia)). lia.
Qed.

Lemma int_float_div_total x k :
  finite_double x → 2 ≤ k → ∃ q, int_float_div x k = Ok q.
Proof.
  intros [Hm Hx] Hk. unfold int_float_div.
  destruct x as [m e]; simpl in *.
  destruct (round_to_double_finite (m * 2 ^ Z.max 0 e) (k * 2 ^ Z.max 0 (- e)))
    as (q & -> & _); [..|by eauto].
  - pose proof (pow2_pos (Z.max 0 e) ltac:(lia)). nia.
  - pose proof (pow2_pos (Z.max 0 (- e)) ltac:(lia)). nia.
  - rewrite ratio_ltb_nonneg by lia. apply Z.ltb_lt.
    assert (2 ^ 1024 = 2 * 2 ^ 1023) as E by done.
    pose proof (pow2_pos 1023 ltac:(lia)).
    destruct (Z.le_gt_cases 0 e) as [He|He].
    + rewrite Z.shiftl_mul_pow2 in Hx by lia.
      rewrite Z.max_r, Z.max_l, Z.pow_0_r by lia. nia.
    + rewrite Z.shiftl_div_pow2 in Hx by lia.
      rewrite Z.max_l, Z.max_r, Z.pow_0_r by lia.
      pose proof (pow2_pos (- e) ltac:(lia)).
      pose proof (Z.div_mod m (2 ^ (- e)) ltac:(lia)).
      pose proof (Z.mod_pos_bound m (2 ^ (- e)) ltac:(lia)).
      nia.
Qed.

Lemma round_to_double_ge a b k x :
  0 < b → 1 ≤ k ≤ 2 ^ 52 → k * b ≤ a → round_to_double a b = Some x →
  k * 2 ^ Z.max 0 (- expo x) ≤ mant x * 2 ^ Z.max 0 (expo x).
Proof.
  intros Hb [Hk1 Hk2] Hab. unfold round_to_double.
  destruct (a =? 0) eqn:Ea; [apply Z.eqb_eq in Ea; nia|].
  destruct (floor_log2_ratio_spec a b ltac:(nia) Hb) as [Hlo _].
  set (l := floor_log2_ratio a b) in *.
  set (e := Z.max (l - 52) (-1074)).
  set (n := a * 2 ^ Z.max 0 (- e)). set (d := b * 2 ^ Z.max 0 e).
  destruct (2 ^ 1024 <=? _); [done|]. intros [= <-]; simpl.
  assert (0 ≤ n) by (pose proof (pow2_pos (Z.max 0 (- e)) ltac:(lia)); subst n; nia).
  assert (0 < d) by (pose proof (pow2_pos (Z.max 0 e) ltac:(lia)); subst d; nia).
  pose proof (div_half_even_bounds n d ltac:(done) ltac:(done)) as [Hm _].
  destruct (Z.le_gt_cases 0 e) as [He|He].
  - assert (e = l - 52) as El by lia.
    rewrite ratio_ltb_nonneg in Hlo by lia. apply Z.ltb_ge in Hlo.
    replace l with (e + 52) in Hlo by lia. rewrite pow2_split in Hlo by lia.
    subst n d. rewrite (Z.max_l 0 (- e)), (Z.max_r 0 e), Z.pow_0_r in * by lia.
    pose proof (pow2_pos e He).
    assert (2 ^ 52 ≤ a * 1 / (b * 2 ^ e)) by (apply Z.div_le_lower_bound; lia).
    nia.
  - subst n d. rewrite (Z.max_r 0 (- e)), (Z.max_l 0 e), Z.pow_0_r in * by lia.
    pose proof (pow2_pos (- e) ltac:(lia)).
    assert (k * 2 ^ (- e) ≤ a * 2 ^ (- e) / (b * 1))
      by (apply Z.div_le_lower_bound; nia).
    lia.
Qed.

(** [round_to_double] gives a nearest double: a mantissa of at most 53 bits,
    full unless the exponent is the least one, within half a unit of the
    last place of [a / b]. *)
Lemma round_to_double_nearest a b m e :
  0 < a → 0 < b → round_to_double a b = Some (Dbl m e) →
  -1074 ≤ e ∧ m ≤ 2 ^ 53 ∧ (2 ^ 52 ≤ m ∨ e = -1074)
  ∧ - (b * 2 ^ Z.max 0 e)
    ≤ 2 * (b * 2 ^ Z.max 0 e * m - a * 2 ^ Z.max 0 (- e))
    ≤ b * 2 ^ Z.max 0 e.
Proof.
  intros Ha Hb. unfold round_to_double.
  destruct (a =? 0) eqn:Ea; [apply Z.eqb_eq in Ea; lia|].
  destruct (floor_log2_ratio_spec a b Ha Hb) as [Hlo Hup].
  set (l := floor_log2_ratio a b) in *.
  set (e' := Z.max (l - 52) (-1074)).
  destruct (2 ^ 1024 <=? _); [done|]. intros [= <- <-].
  assert (ratio_ltb a b (e' + 53) = true) as He
    by (apply (ratio_ltb_mono a b (l + 1)); [lia|done|lia|done]).
  apply scaled_lt in He; [|lia..].
  set (n := a * 2 ^ Z.max 0 (- e')) in *. set (d := b * 2 ^ Z.max 0 e') in *.
  assert (0 ≤ n) by (pose proof (pow2_pos (Z.max 0 (- e')) ltac:(lia)); subst n; nia).
  assert (0 < d) by (pose proof (pow2_pos (Z.max 0 e') ltac:(lia)); subst d; nia).
  pose proof (div_half_even_bounds n d ltac:(done) ltac:(done)) as [Hm1 Hm2].
  assert (n / d < 2 ^ 53) by (apply Z.div_lt_upper_bound; lia).
  split; [lia|]. split; [lia|]. split; [|by apply div_half_even_error].
  destruct (Z.le_gt_cases (-1074) (l - 52)) as [Hn|Hn]; [left|right; lia].
  assert (e' = l - 52) as He' by lia.
  assert (2 ^ 52 ≤ n / d); [|lia].
  apply Z.div_le_lower_bound; [done|].
  destruct (Z.le_gt_cases 0 l) as [Hl|Hl].
  - rewrite ratio_ltb_nonneg in Hlo by done. apply Z.ltb_ge in Hlo.
    destruct (Z.le_gt_cases 0 e') as [Hs|Hs].
    + subst n d. rewrite (Z.max_l 0 (- e')), (Z.max_r 0 e'), Z.pow_0_r by lia.
      replace l with (e' + 52) in Hlo by lia. rewrite pow2_split in Hlo by lia. lia.
    + subst n d. rewrite (Z.max_r 0 (- e')), (Z.max_l 0 e'), Z.pow_0_r by lia.
      pose proof (pow2_pos (- e') ltac:(lia)).
      assert (b * 2 ^ l * 2 ^ (- e') ≤ a * 2 ^ (- e'))
        by (apply Z.mul_le_mono_nonneg_r; lia).
      rewrite <- Z.mul_assoc, <- pow2_split in * by lia.
      replace (l + - e') with 52 in * by lia. lia.
  - rewrite ratio_ltb_neg in Hlo by lia. apply Z.ltb_ge in Hlo.
    subst n d. rewrite (Z.max_r 0 (- e')), (Z.max_l 0 e'), Z.pow_0_r by lia.
    replace (- e') with (- l + 52) by lia. rewrite pow2_split by lia.
    pose proof (pow2_pos 52 ltac:(lia)).
    assert (b * 2 ^ 52 ≤ a * 2 ^ (- l) * 2 ^ 52)
      by (apply Z.mul_le_mono_nonneg_r; lia).
    lia.
Qed.

Lemma hundredths_mod_bounds x :
  0 ≤ hundredths (float_mod_int x 60) ≤ 6000.
Proof.
  unfold hundredths, float_mod_int. destruct x as [m e]; cbn [mant expo].
  destruct (0 <=? e) eqn:He; cbn [mant expo].
  - change (2 ^ Z.max 0 (- 0)) with 1. change (2 ^ Z.max 0 0) with 1.
    pose proof (Z.mod_pos_bound (m * 2 ^ e) 60 ltac:(lia)).
    set (r := (m * 2 ^ e) `mod` 60) in *.
    pose proof (div_half_even_bounds (100 * r * 1) 1 ltac:(lia) ltac:(lia)).
    rewrite Z.div_1_r in *. lia.
  - apply Z.leb_gt in He.
    rewrite (Z.max_l 0 e), (Z.max_r 0 (- e)), Z.pow_0_r by lia.
    pose proof (pow2_pos (- e) ltac:(lia)) as Hp.
    pose proof (Z.mod_pos_bound m (60 * 2 ^ (- e)) ltac:(lia)).
    set (r := m `mod` (60 * 2 ^ (- e))) in *.
    pose proof (div_half_even_bounds (100 * r * 1) (2 ^ (- e)) ltac:(lia) Hp).
    assert (100 * r * 1 / 2 ^ (- e) < 6000) by (apply Z.div_lt_upper_bound; lia).
    assert (0 ≤ 100 * r * 1 / 2 ^ (- e)) by (apply Z.div_pos; lia).
    lia.
Qed.

(** Below a minute: the float is below 60 and the hundredths printed are
    the nearest to [ms / 1000]. *)
Lemma seconds_regime ms x :
  1000 ≤ ms < 60000 → round_to_double ms 1000 = Some x →
  float_lt_int x 60 = true
  ∧ 100 ≤ hundredths x ≤ 6000 ∧ -5 ≤ 10 * hundredths x - ms ≤ 5.
Proof.
  intros Hms. unfold round_to_double.
  destruct (ms =? 0) eqn:E0; [apply Z.eqb_eq in E0; lia|].
  destruct (floor_log2_ratio_spec ms 1000 ltac:(lia) ltac:(lia)) as [Hlo _].
  set (l := floor_log2_ratio ms 1000) in *.
  assert (l ≤ 5) as Hl.
  { destruct (Z.le_gt_cases 6 l) as [H|H]; [|lia].
    rewrite (ratio_ltb_mono ms 1000 6 l) in Hlo; [done|lia|lia|done|].
    rewrite ratio_ltb_nonneg by lia. apply Z.ltb_lt.
    change (2 ^ 6) with 64. lia. }
  set (e := Z.max (l - 52) (-1074)).
  assert (e ≤ -47) as He by lia.
  rewrite (Z.max_r 0 (- e)), (Z.max_l 0 e), Z.pow_0_r by lia.
  destruct (2 ^ 1024 <=? _); [done|]. intros [= <-].
  unfold float_lt_int, hundredths. cbn [mant expo].
  rewrite (Z.max_r 0 (- e)), (Z.max_l 0 e), Z.pow_0_r by lia.
  assert (2 ^ 47 ≤ 2 ^ (- e)) as Hp by (apply Z.pow_le_mono_r; lia).
  change (2 ^ 47) with 140737488355328 in Hp.
  set (p := 2 ^ (- e)) in *.
  pose proof (div_half_even_error (ms * p) (1000 * 1) ltac:(lia)) as Hm.
  set (m := div_half_even (ms * p) (1000 * 1)) in *.
  pose proof (div_half_even_error (100 * m * 1) p ltac:(lia)) as Hh.
  set (h := div_half_even (100 * m * 1) p) in *.
  assert (m < 60 * p) as Hlt by nia.
  assert (-5 ≤ 10 * h - ms ≤ 5) by nia.
  split; [apply Z.ltb_lt|]; lia.
Qed.

(** Minutes are at least one and the division by 60 returns. *)
Lemma minutes_regime x :
  finite_double x → float_lt_int x 60 = false →
  ∃ minutes, int_float_div x 60 = Ok minutes ∧ 1 ≤ minutes.
Proof.
  intros Hx Hge. unfold int_float_div.
  destruct x as [m e]; destruct Hx as [Hm Hx]; simpl in *.
  unfold float_lt_int in Hge; simpl in Hge. apply Z.ltb_ge in Hge.
  pose proof (pow2_pos (Z.max 0 e) ltac:(lia)).
  pose proof (pow2_pos (Z.max 0 (- e)) ltac:(lia)).
  destruct (int_float_div_total (Dbl m e) 60) as [q Hq]; [done|lia|].
  unfold int_float_div in Hq; simpl in Hq.
  destruct (round_to_double _ _) as [y|] eqn:Ey; [|done].
  clear Hq. eexists. split; [done|].
  assert (1 ≤ 1 ≤ 2 ^ 52) as H1 by (by vm_compute).
  assert (Hy := Ey). apply (round_to_double_ge _ _ 1) in Hy; [|lia|done|lia].
  destruct y as [my ey]; simpl in *.
  destruct (Z.le_gt_cases 0 ey) as [He|He].
  - rewrite Z.shiftl_mul_pow2 by lia.
    rewrite (Z.max_l 0 (- ey)), (Z.max_r 0 ey), Z.pow_0_r in Hy by lia. lia.
  - rewrite Z.shiftl_div_pow2 by lia.
    rewrite (Z.max_r 0 (- ey)), (Z.max_l 0 ey), Z.pow_0_r in Hy by lia.
    apply Z.div_le_lower_bound; [apply pow2_pos|]; lia.
Qed.

(** The rounding agrees with the division of [SpecFloat] on the durations
    of the examples, on ties of the two decimals and on large values. *)
Lemma rounding_agrees_with_SpecFloat :
  forallb (λ ms, agrees_with_spec ms 1000)
    [1; 999; 1000; 1005; 1015; 1025; 1125; 1375; 1500; 59999; 60000; 61000;
     119999; 3599999; 123456789; 1700000000000; 2 ^ 53 - 1] = true.
Proof. by vm_compute. Qed.

Lemma format_duration_ms ms :
  ms < 1000 → format_duration ms = Ok (pretty ms +:+ "ms").
Proof.
  intros H. unfold format_duration. by destruct (Z.ltb_spec ms 1000); [|lia].
Qed.

Lemma format_duration_seconds ms :
  1000 ≤ ms < 60000 →
  ∃ h, 100 ≤ h ≤ 6000 ∧ -5 ≤ 10 * h - ms ≤ 5
       ∧ format_duration ms = Ok (fixed2 h +:+ "s").
Proof.
  intros H. unfold format_duration.
  destruct (Z.ltb_spec ms 1000); [lia|].
  assert (ms < 2 ^ 1024) as Hmax.
  { assert (60000 < 2 ^ 1024) by (by vm_compute). lia. }
  destruct (int_true_div_finite ms) as (x & Ex & _); [lia|].
  rewrite Ex. unfold int_true_div in Ex.
  destruct (round_to_double ms 1000) as [y|] eqn:Ey; [|done].
  injection Ex as ->.
  destruct (seconds_regime ms x H Ey) as (Hlt & ? & ?).
  simpl. rewrite Hlt. by exists (hundredths x).
Qed.

Lemma format_duration_minutes ms :
  60000 ≤ ms < 2 ^ 1024 →
  ∃ minutes h, 1 ≤ minutes ∧ 0 ≤ h ≤ 6000
       ∧ format_duration ms
         = Ok (pretty minutes +:+ "m " +:+ fixed2 h +:+ "s").
Proof.
  intros H. unfold format_duration.
  destruct (Z.ltb_spec ms 1000); [lia|].
  destruct (int_true_div_finite ms) as (x & Ex & Hx); [lia|].
  rewrite Ex. simpl.
  assert (float_lt_int x 60 = false) as Hge.
  { unfold int_true_div in Ex.
    destruct (round_to_double ms 1000) as [y|] eqn:Ey; [|done].
    injection Ex as ->. unfold float_lt_int. apply Z.ltb_ge.
    apply (round_to_double_ge ms 1000 60 x); [lia| |lia|done].
    by vm_compute. }
  rewrite Hge.
  destruct (minutes_regime x Hx Hge) as (minutes & -> & Hmin).
  simpl. exists minutes, (hundredths (float_mod_int x 60)).
  split; [done|]. split; [apply hundredths_mod_bounds|done].
Qed.

(** Below the range of a double [format_duration] returns. *)
Lemma format_duration_returns ms :
  ms < 2 ^ 1024 → ∃ s, format_duration ms = Ok s.
Proof.
  intros H.
  destruct (Z.lt_ge_cases ms 1000); [rewrite format_duration_ms by done; by eexists|].
  destruct (Z.lt_ge_cases ms 60000).
  - destruct (format_duration_seconds ms) as (h & _ & _ & ->); [lia|]. by eexists.
  - destruct (format_duration_minutes ms) as (m & h & _ & _ & ->); [lia|]. by eexists.
Qed.




(** ** The statistics *)

Section StatisticsFacts.
Variable str_lower : string → string.

Lemma bucket_sum_incr (stats : gmap string Z) k :
  k ≠ "total" →
  bucket_sum (<[k := default 0 (stats !! k) + 1]> stats) = bucket_sum stats + 1.
Proof.
  intros Hk. unfold bucket_sum. rewrite delete_insert_ne by done.
  assert (delete "total" stats !! k = stats !! k) as <- by (by rewrite lookup_delete_ne).
  set (m := delete "total" stats).
  assert (∀ (j1 j2 : string) (z1 z2 y : Z), z1 + (z2 + y) = z2 + (z1 + y)) as Hc
    by (intros; lia).
  destruct (m !! k) as [v|] eqn:E; simpl.
  - rewrite <- insert_delete_eq.
    rewrite map_fold_insert_L; [|by intros; apply Hc|by rewrite lookup_delete_eq].
    rewrite (map_fold_delete_L _ _ k v m); [lia|by intros; apply Hc|done].
  - rewrite map_fold_insert_L; [lia|by intros; apply Hc|done].
Qed.

Lemma bucket_sum_set_total (stats : gmap string Z) v :
  bucket_sum (<["total" := v]> stats) = bucket_sum stats.
Proof. unfold bucket_sum. by rewrite delete_insert_eq. Qed.

Lemma count_result_sound (stats : gmap string Z) r n :
  stats !! "total" = Some n → counts_in_bucket str_lower r = true →
  ∃ stats', count_result str_lower stats r = Ok stats'
    ∧ stats' !! "total" = Some (n + 1)
    ∧ bucket_sum stats' = bucket_sum stats + 1.
Proof.
  intros Hn Hr. destruct r as [| | | | |kvs]; try done.
  unfold counts_in_bucket in Hr. unfold count_result, py_get. simpl.
  destruct (default (JStr "unknown") (kvs !! "status")) as [| | |s| |]; try done.
  apply negb_true_iff, bool_decide_eq_false in Hr. simpl.
  unfold py_item. rewrite lookup_insert_ne, Hn by done. simpl.
  eexists. split; [done|]. split; [by rewrite lookup_insert_eq|].
  by rewrite bucket_sum_set_total, bucket_sum_incr.
Qed.

Lemma count_results_sound rs : ∀ (stats : gmap string Z) n,
  stats !! "total" = Some n → forallb (counts_in_bucket str_lower) rs = true →
  ∃ stats', count_results str_lower stats rs = Ok stats'
    ∧ stats' !! "total" = Some (n + Z.of_nat (length rs))
    ∧ bucket_sum stats' = bucket_sum stats + Z.of_nat (length rs).
Proof.
  induction rs as [|r rs IH]; intros stats n Hn Hrs.
  - exists stats. simpl. split; [done|]. split; [rewrite Hn; f_equal|]; lia.
  - simpl in Hrs. apply andb_true_iff in Hrs as [Hr Hrs].
    destruct (count_result_sound stats r n Hn Hr) as (st1 & E1 & Ht1 & Hb1).
    destruct (IH st1 (n + 1) Ht1 Hrs) as (st2 & E2 & Ht2 & Hb2).
    exists st2. simpl. rewrite E1. simpl. split; [done|].
    split; [rewrite Ht2; f_equal|]; lia.
Qed.

(** Where no status lower-cases to the key of the total, the total is the
    number of records and so is the sum of the buckets. *)
Lemma statistics_without_total_status self :
  forallb (counts_in_bucket str_lower) (results self) = true →
  ∃ stats, get_statistics str_lower self = Ok stats
    ∧ stats !! "total" = Some (Z.of_nat (length (results self)))
    ∧ bucket_sum stats = Z.of_nat (length (results self)).
Proof.
  intros H. unfold get_statistics.
  destruct (count_results_sound (results self) initial_stats 0 eq_refl H)
    as (stats & E & Ht & Hb).
  exists stats. split; [done|]. split; [done|].
  rewrite Hb. by vm_compute.
Qed.

End StatisticsFacts.

(** A record whose status is the word of the total. *)
Lemma statistics_of_status_total :
  get_statistics ascii_lower (gen_of [with_status "total"] ∅)
  = Ok (<["total" := 2]> initial_stats).
Proof. vm_compute. reflexivity. Qed.

(** C1, at the failing input: one loaded record with the status "total"
    leaves [stats['total']] at 2, not at the number of records, 1. *)
Theorem total_counts_a_total_status_twice :
  ∃ stats,
    get_statistics ascii_lower (gen_of [with_status "total"] ∅) = Ok stats
    ∧ length (results (gen_of [with_status "total"] ∅)) = 1%nat
    ∧ stats !! "total" = Some 2.
Proof.
  eexists. split; [apply statistics_of_status_total|]. split; [done|].
  by rewrite lookup_insert_eq.
Qed.

(** C2, at the failing input: the record with the status "total" is in no
    bucket; the buckets sum to 0 while the total is 2. *)
Theorem bucket_sum_misses_a_total_status :
  ∃ stats,
    get_statistics ascii_lower (gen_of [with_status "total"] ∅) = Ok stats
    ∧ bucket_sum stats = 0
    ∧ stats !! "total" = Some 2.
Proof.
  eexists. split; [apply statistics_of_status_total|].
  split; [by vm_compute|by rewrite lookup_insert_eq].
Qed.

(** ** The display order *)

Section Sorting.
Context {A : Type}.
Implicit Types (l : list (nat * A)) (k : nat) (x : A).


Lemma insert_by_before k x l :
  Forall (λ p, k ≤ p.1)%nat l → insert_by k x l = (k, x) :: l.
Proof.
  destruct 1 as [|[k' y] l Hle _]; [done|]. simpl in *.
  destruct (Nat.leb_spec k k'); [done|lia].
Qed.

Lemma insert_by_perm k x l : insert_by k x l ≡ₚ (k, x) :: l.
Proof.
  induction l as [|[k' y] l IH]; [done|]. simpl.
  destruct (k <=? k')%nat; [done|]. by rewrite IH, Permutation_swap.
Qed.

Lemma stable_sort_perm l : stable_sort l ≡ₚ l.
Proof.
  induction l as [|[k x] l IH]; [done|].
  change (stable_sort ((k, x) :: l)) with (insert_by k x (stable_sort l)).
  by rewrite insert_by_perm, IH.
Qed.

End Sorting.




(** C10: the tier is read from the raw status: 0 exactly for the str
    "failed", 1 exactly for "broken", 2 for a missing status and for
    "FAILED", which the statistics nevertheless count as failed. *)
Theorem display_tier_reads_raw_status :
  (∀ kvs, sort_key (JObj kvs) = Ok (tier_of kvs))
  ∧ (∀ kvs, tier_of kvs = 0%nat ↔ kvs !! "status" = Some (JStr "failed"))
  ∧ (∀ kvs, tier_of kvs = 1%nat ↔ kvs !! "status" = Some (JStr "broken"))
  ∧ (∀ kvs, kvs !! "status" = None → tier_of kvs = 2%nat)
  ∧ sort_key (with_status "FAILED") = Ok 2%nat
  ∧ get_statistics ascii_lower (gen_of [with_status "FAILED"] ∅)
    = Ok (<["total" := 1]> (<["failed" := 1]> initial_stats)).
Proof.
  split; [|split; [|split; [|split; [|split]]]].
  - intros kvs. unfold sort_key, py_get, tier_of, has_status. simpl.
    destruct (kvs !! "status"); simpl; repeat case_match; done.
  - intros kvs. unfold tier_of, has_status, py_eq_str.
    destruct (kvs !! "status") as [[| | |s| |]|]; try (split; done).
    repeat case_bool_decide; split; intros; simplify_eq; done.
  - intros kvs. unfold tier_of, has_status, py_eq_str.
    destruct (kvs !! "status") as [[| | |s| |]|]; try (split; done).
    repeat case_bool_decide; split; intros; simplify_eq; done.
  - intros kvs H. unfold tier_of, has_status. by rewrite H.
  - by vm_compute.
  - vm_compute. reflexivity.
Qed.

(** ** The rendered document *)

Lemma bind_ok {A B} (r : result A) (f : A → result B) b :
  (x ← r; f x) = Ok b → ∃ a, r = Ok a ∧ f a = Ok b.
Proof. destruct r; simpl; [eauto|done]. Qed.

Lemma bind_Ok {A B} (a : A) (f : A → result B) : Ok a ≫= f = f a.
Proof. done. Qed.

Lemma append_assoc (s t u : string) : (s +:+ t) +:+ u = s +:+ t +:+ u.
Proof.
  induction s as [|c s IH]; [done|].
  change (String c ((s +:+ t) +:+ u) = String c (s +:+ t +:+ u)).
  by rewrite IH.
Qed.

Lemma py_get_obj kvs k d : py_get (JObj kvs) k d = Ok (default d (kvs !! k)).
Proof. done. Qed.

Lemma py_get_ok v k d w : py_get v k d = Ok w → ∃ kvs, v = JObj kvs ∧ w = default d (kvs !! k).
Proof. destruct v; try done. intros [= <-]. eauto. Qed.

(** *** Occurrences in a text *)

Lemma starts_with_append (c s t : string) :
  starts_with c s = true → starts_with c (s +:+ t) = true.
Proof.
  revert s. induction c as [|a c IH]; intros s H; [done|].
  destruct s as [|b s]; [done|].
  change (String b s +:+ t) with (String b (s +:+ t)).
  simpl in *. apply andb_true_iff in H as [-> H]. by apply IH.
Qed.

Lemma starts_with_here (c t : string) : starts_with c (c +:+ t) = true.
Proof.
  induction c as [|a c IH]; [done|].
  change (String a c +:+ t) with (String a (c +:+ t)).
  simpl. by rewrite bool_decide_eq_true_2, IH.
Qed.

Lemma occurs_unfold c s :
  occurs c s
  = starts_with c s
    || match s with EmptyString => false | String _ s' => occurs c s' end.
Proof. by destruct s. Qed.

Lemma occurs_here (c t : string) : occurs c (c +:+ t) = true.
Proof. by rewrite occurs_unfold, starts_with_here. Qed.

Lemma occurs_append_l (c s t : string) :
  occurs c s = true → occurs c (s +:+ t) = true.
Proof.
  induction s as [|b s IH]; intros H.
  - rewrite occurs_unfold, orb_false_r in H.
    destruct c; [|done]. by destruct t.
  - rewrite occurs_unfold in H. apply orb_true_iff in H as [H|H].
    + rewrite occurs_unfold. apply orb_true_iff. left. by apply starts_with_append.
    + change (String b s +:+ t) with (String b (s +:+ t)).
      rewrite occurs_unfold. apply orb_true_iff. right. by apply IH.
Qed.

Lemma occurs_append_r (c s t : string) :
  occurs c t = true → occurs c (s +:+ t) = true.
Proof.
  intros H. induction s as [|b s IH]; [done|].
  change (String b s +:+ t) with (String b (s +:+ t)).
  rewrite occurs_unfold. apply orb_true_iff. by right.
Qed.

Lemma occurs_joined (c x : string) (l : list string) :
  x ∈ l → occurs c x = true → occurs c (joined l) = true.
Proof.
  intros Hx Hc. induction Hx as [x l|x y l _ IH].
  - exact (occurs_append_l c x (joined l) Hc).
  - exact (occurs_append_r c y (joined l) (IH Hc)).
Qed.

Lemma occurs_attachment_block name content :
  occurs content (attachment_block name content) = true.
Proof.
  unfold attachment_block.
  repeat first [apply occurs_here | apply occurs_append_r].
Qed.

Section DocumentFacts.
Variable str_lower : string → string.
Variable container_str : json → string.






(** What a rendered card is made of. *)
Lemma render_card_ok self idx r card :
  render_card str_lower container_str self idx r = Ok card →
  ∃ kvs s duration_text labels_html steps_html atts_html,
    r = JObj kvs
    ∧ default (JStr "unknown") (kvs !! "status") = JStr s
    ∧ render_attachments container_str self (default (JArr []) (kvs !! "attachments"))
      = Ok atts_html
    ∧ card
      = card_head (pretty idx) (get_status_color str_lower (str_lower s))
          (get_status_icon str_lower (str_lower s))
          (py_str container_str (default (JStr "Unknown Test") (kvs !! "name")))
          (py_str container_str
             (default (default (JStr "Unknown Test") (kvs !! "name")) (kvs !! "fullName")))
          duration_text
        +:+ labels_html +:+ steps_html
        +:+ render_error container_str
              (default (JStr EmptyString)
                 (match default (JObj ∅) (kvs !! "statusDetails") with
                  | JObj d => d !! "message" | _ => None end))
              (default (JStr EmptyString)
                 (match default (JObj ∅) (kvs !! "statusDetails") with
                  | JObj d => d !! "trace" | _ => None end))
        +:+ atts_html +:+ card_close.
Proof.
  unfold render_card. intros H.
  apply bind_ok in H as (v & Ev & H). apply py_get_ok in Ev as (kvs & -> & ->).
  apply bind_ok in H as (status & Es & H). unfold py_lower in Es.
  destruct (default (JStr "unknown") (kvs !! "status")) as [| | |s| |] eqn:Est; try done.
  injection Es as <-.
  repeat (progress (rewrite ?py_get_obj, ?bind_Ok in H)).
  apply bind_ok in H as (duration & _ & H).
  repeat (progress (rewrite ?py_get_obj, ?bind_Ok in H)).
  apply bind_ok in H as (msg & Em & H). apply py_get_ok in Em as (d & Ed & ->).
  apply bind_ok in H as (trace & Et & H). apply py_get_ok in Et as (d' & Ed' & ->).
  rewrite Ed in Ed'. injection Ed' as <-.
  apply bind_ok in H as (duration_text & _ & H).
  apply bind_ok in H as (labels_html & _ & H).
  apply bind_ok in H as (steps_html & _ & H).
  apply bind_ok in H as (atts_html & Ea & H).
  injection H as <-.
  exists kvs, s, duration_text, labels_html, steps_html, atts_html.
  rewrite Ed. done.
Qed.

(** *** Attachments *)

Lemma render_attachment_resolved self kvs :
  absent_or is_str kvs "source" = true →
  render_attachment container_str self (JObj kvs)
  = Ok (resolved_entry container_str self kvs).
Proof.
  intros H. unfold render_attachment, resolved_entry, absent_or in *.
  rewrite !py_get_obj, !bind_Ok.
  destruct (kvs !! "source") as [[| | |s| |]|]; try done; simpl;
    by destruct (attachments self !! _).
Qed.

Lemma for_html_resolved self (entries : list (gmap string json)) :
  Forall (λ kvs, absent_or is_str kvs "source" = true) entries →
  for_html (render_attachment container_str self) (JObj <$> entries)
  = Ok (joined (resolved_entry container_str self <$> entries)).
Proof.
  induction 1 as [|kvs entries Hk _ IH]; [done|].
  rewrite !fmap_cons. cbn [for_html joined foldr].
  by rewrite render_attachment_resolved, bind_Ok, IH, bind_Ok.
Qed.

(** C6: over entries whose source is a str or is missing, the loop of the
    attachments block returns; an entry whose source is a key of the
    attachment mapping adds the block holding that content as it is, an
    entry whose source is no key adds nothing, and the card of the record
    ends with that section, so that every resolved content occurs in it. *)
Theorem attachments_resolution self (entries : list (gmap string json)) :
  Forall (λ kvs, absent_or is_str kvs "source" = true) entries →
  render_attachments container_str self (JArr (JObj <$> entries))
  = Ok (match entries with
        | [] => EmptyString
        | _ => attachments_open
               +:+ joined (resolved_entry container_str self <$> entries)
               +:+ attachments_close
        end)
  ∧ (∀ kvs s content,
       kvs !! "source" = Some (JStr s) → attachments self !! s = Some content →
       resolved_entry container_str self kvs
       = attachment_block
           (py_str container_str (default (JStr "Attachment") (kvs !! "name")))
           content)
  ∧ (∀ kvs s,
       kvs !! "source" = Some (JStr s) → attachments self !! s = None →
       resolved_entry container_str self kvs = EmptyString)
  ∧ (∀ idx kvs card,
       kvs !! "attachments" = Some (JArr (JObj <$> entries)) →
       render_card str_lower container_str self idx (JObj kvs) = Ok card →
       ∃ before,
         card
         = before
           +:+ match entries with
               | [] => EmptyString
               | _ => attachments_open
                      +:+ joined (resolved_entry container_str self <$> entries)
                      +:+ attachments_close
               end
           +:+ card_close)
  ∧ (∀ idx kvs card entry s content,
       kvs !! "attachments" = Some (JArr (JObj <$> entries)) →
       render_card str_lower container_str self idx (JObj kvs) = Ok card →
       entry ∈ entries →
       entry !! "source" = Some (JStr s) → attachments self !! s = Some content →
       occurs content card = true).
Proof.
  intros Hentries.
  assert (render_attachments container_str self (JArr (JObj <$> entries))
          = Ok (match entries with
                | [] => EmptyString
                | _ => attachments_open
                       +:+ joined (resolved_entry container_str self <$> entries)
                       +:+ attachments_close
                end)) as Hsection.
  { unfold render_attachments, truthy, py_iter.
    destruct entries as [|kvs entries]; [done|].
    rewrite bool_decide_eq_false_2 by done. cbn [negb].
    by rewrite bind_Ok, for_html_resolved, bind_Ok. }
  assert (∀ idx kvs card,
            kvs !! "attachments" = Some (JArr (JObj <$> entries)) →
            render_card str_lower container_str self idx (JObj kvs) = Ok card →
            ∃ before,
              card
              = before
                +:+ match entries with
                    | [] => EmptyString
                    | _ => attachments_open
                           +:+ joined (resolved_entry container_str self <$> entries)
                           +:+ attachments_close
                    end
                +:+ card_close) as Hcard.
  { intros idx kvs card Ha Hcard.
    apply render_card_ok in Hcard
      as (kvs' & s & dur & lh & sh & ah & [= <-] & _ & Hatts & ->).
    replace (default (JArr []) (kvs !! "attachments"))
      with (JArr (JObj <$> entries)) in Hatts by (by rewrite Ha).
    rewrite Hsection in Hatts. injection Hatts as <-.
    eexists. rewrite <- !append_assoc. done. }
  split; [done|]. split; [|split; [|split; [done|]]].
  - intros kvs s content Hs Hc. unfold resolved_entry. by rewrite Hs, Hc.
  - intros kvs s Hs Hc. unfold resolved_entry. by rewrite Hs, Hc.
  - intros idx kvs card entry s content Ha Hc Hin Hs Hfound.
    destruct (Hcard idx kvs card Ha Hc) as [before ->].
    destruct entries as [|e0 entries']; [by apply elem_of_nil in Hin|].
    apply occurs_append_r, occurs_append_l, occurs_append_r, occurs_append_l.
    apply (occurs_joined _ (resolved_entry container_str self entry)).
    + apply list_elem_of_fmap. by exists entry.
    + unfold resolved_entry. rewrite Hs, Hfound.
      apply occurs_attachment_block.
Qed.

(** *** No field is required *)

Lemma absent_or_default p kvs k d :
  absent_or p kvs k = true → p d = true → p (default d (kvs !! k)) = true.
Proof. unfold absent_or. by destruct (kvs !! k). Qed.

Lemma for_html_returns {A} (f : A → result string) xs :
  Forall (λ x, ∃ s, f x = Ok s) xs → ∃ s, for_html f xs = Ok s.
Proof.
  induction 1 as [|x xs [s Hs] _ [t Ht]]; [by eexists|].
  simpl. rewrite Hs, bind_Ok, Ht, bind_Ok. by eexists.
Qed.

Lemma for_enum_returns {A} (f : nat → A → result string) xs : ∀ idx,
  Forall (λ x, ∀ i, ∃ s, f i x = Ok s) xs → ∃ s, for_enum f idx xs = Ok s.
Proof.
  induction xs as [|x xs IH]; intros idx H; [by eexists|].
  apply Forall_cons in H as [Hx Hxs].
  destruct (Hx idx) as [s Hs]. destruct (IH (S idx) Hxs) as [t Ht].
  simpl. rewrite Hs, bind_Ok, Ht, bind_Ok. by eexists.
Qed.

Lemma list_of_obj_elements xs :
  forallb is_obj xs = true → Forall (λ x, ∃ kvs, x = JObj kvs) xs.
Proof.
  intros H. apply Forall_forall. intros x Hx%list_elem_of_In.
  rewrite forallb_forall in H. specialize (H x Hx).
  destruct x; try done. by eexists.
Qed.

Lemma render_labels_returns v :
  list_of is_obj v = true → ∃ s, render_labels container_str v = Ok s.
Proof.
  destruct v as [| | | |xs|]; try done. intros H%list_of_obj_elements.
  unfold render_labels, py_iter. destruct (truthy (JArr xs)); [|by eexists].
  rewrite bind_Ok.
  destruct (for_html_returns (render_label container_str) xs) as [s ->].
  { eapply Forall_impl; [done|]. intros x [kvs ->]. by eexists. }
  rewrite bind_Ok. by eexists.
Qed.

Lemma render_steps_returns v :
  list_of is_obj v = true → ∃ s, render_steps container_str v = Ok s.
Proof.
  destruct v as [| | | |xs|]; try done. intros H%list_of_obj_elements.
  unfold render_steps, py_iter. destruct (truthy (JArr xs)); [|by eexists].
  rewrite bind_Ok.
  destruct (for_html_returns (render_step container_str) xs) as [s ->].
  { eapply Forall_impl; [done|]. intros x [kvs ->]. by eexists. }
  rewrite bind_Ok. by eexists.
Qed.

Lemma render_attachments_returns self v :
  list_of wf_attachment v = true →
  ∃ s, render_attachments container_str self v = Ok s.
Proof.
  destruct v as [| | | |xs|]; try done. simpl. intros H.
  unfold render_attachments, py_iter. destruct (truthy (JArr xs)); [|by eexists].
  rewrite bind_Ok.
  destruct (for_html_returns (render_attachment container_str self) xs) as [s ->].
  { apply Forall_forall. intros x Hx%list_elem_of_In.
    rewrite forallb_forall in H. specialize (H x Hx).
    destruct x as [| | | | |kvs]; try done.
    rewrite render_attachment_resolved by done. by eexists. }
  rewrite bind_Ok. by eexists.
Qed.

Lemma duration_of_returns r :
  wf_record r = true → ∃ d, duration_of r = Ok d.
Proof.
  destruct r as [| | | | |kvs]; try done. simpl.
  rewrite !andb_true_iff. intros [[[[[[_ Hstart] Hstop] _] _] _] _].
  unfold duration_of. rewrite !py_get_obj, !bind_Ok.
  pose proof (absent_or_default is_int kvs "stop" (JInt 0) Hstop eq_refl) as H1.
  pose proof (absent_or_default is_int kvs "start" (JInt 0) Hstart eq_refl) as H2.
  destruct (default (JInt 0) (kvs !! "stop")); try done.
  destruct (default (JInt 0) (kvs !! "start")); try done.
  by eexists.
Qed.

Lemma render_card_returns self idx r d :
  wf_record r = true → duration_of r = Ok d → d < 2 ^ 1024 →
  ∃ card, render_card str_lower container_str self idx r = Ok card.
Proof.
  intros Hwf Hd Hrange. destruct r as [| | | | |kvs]; try done.
  simpl in Hwf. rewrite !andb_true_iff in Hwf.
  destruct Hwf as [[[[[[Hst _] _] Hsteps] Hlabels] Hatts] Hdetails].
  unfold render_card, py_lower.
  repeat (progress (rewrite ?py_get_obj, ?bind_Ok)).
  pose proof (absent_or_default is_str kvs "status" (JStr "unknown") Hst eq_refl) as H1.
  destruct (default (JStr "unknown") (kvs !! "status")) as [| | |s| |]; try done.
  repeat (progress (rewrite ?py_get_obj, ?bind_Ok)).
  rewrite Hd, bind_Ok.
  repeat (progress (rewrite ?py_get_obj, ?bind_Ok)).
  pose proof (absent_or_default is_obj kvs "statusDetails" (JObj ∅) Hdetails eq_refl) as H2.
  destruct (default (JObj ∅) (kvs !! "statusDetails")) as [| | | | |details]; try done.
  repeat (progress (rewrite ?py_get_obj, ?bind_Ok)).
  destruct (format_duration_returns d Hrange) as [dt ->]. rewrite bind_Ok.
  destruct (render_labels_returns (default (JArr []) (kvs !! "labels"))) as [lh ->];
    [by apply absent_or_default|]. rewrite bind_Ok.
  destruct (render_steps_returns (default (JArr []) (kvs !! "steps"))) as [sh ->];
    [by apply absent_or_default|]. rewrite bind_Ok.
  destruct (render_attachments_returns self (default (JArr []) (kvs !! "attachments")))
    as [ah ->]; [by apply absent_or_default|]. rewrite bind_Ok.
  by eexists.
Qed.

Lemma count_result_returns (stats : gmap string Z) r :
  wf_record r = true → is_Some (stats !! "total") →
  ∃ stats', count_result str_lower stats r = Ok stats'
    ∧ ∀ k, is_Some (stats !! k) → is_Some (stats' !! k).
Proof.
  intros Hwf [n Hn]. destruct r as [| | | | |kvs]; try done.
  simpl in Hwf. rewrite !andb_true_iff in Hwf.
  destruct Hwf as [[[[[[Hst _] _] _] _] _] _].
  unfold count_result, py_lower. rewrite py_get_obj, bind_Ok.
  pose proof (absent_or_default is_str kvs "status" (JStr "unknown") Hst eq_refl) as H1.
  destruct (default (JStr "unknown") (kvs !! "status")) as [| | |s| |]; try done.
  rewrite bind_Ok. cbv zeta. unfold py_item.
  set (stats1 := <[str_lower s := default 0 (stats !! str_lower s) + 1]> stats).
  assert (∀ k, is_Some (stats !! k) → is_Some (stats1 !! k)) as Hkeep.
  { intros k Hk. subst stats1. rewrite lookup_insert. by case_decide. }
  destruct (Hkeep "total" ltac:(by eexists)) as [t ->]. rewrite bind_Ok.
  eexists. split; [done|]. intros k Hk.
  rewrite lookup_insert. case_decide; [done|]. by apply Hkeep.
Qed.

Lemma count_results_returns rs : ∀ (stats : gmap string Z),
  forallb wf_record rs = true → is_Some (stats !! "total") →
  ∃ stats', count_results str_lower stats rs = Ok stats'
    ∧ ∀ k, is_Some (stats !! k) → is_Some (stats' !! k).
Proof.
  induction rs as [|r rs IH]; intros stats Hrs Ht; [by eexists|].
  simpl in Hrs. apply andb_true_iff in Hrs as [Hr Hrs].
  destruct (count_result_returns stats r Hr Ht) as (st1 & E1 & K1).
  destruct (IH st1 Hrs (K1 _ Ht)) as (st2 & E2 & K2).
  exists st2. simpl. rewrite E1, bind_Ok. split; [done|]. auto.
Qed.

Lemma mapM_returns {A B} (f : A → result B) xs :
  Forall (λ x, ∃ y, f x = Ok y) xs →
  ∃ ys, mapM f xs = Ok ys ∧ length ys = length xs.
Proof.
  induction 1 as [|x xs [y Hy] _ (ys & Hys & Hlen)]; [by eexists|].
  exists (y :: ys). split; [|simpl; by rewrite Hlen].
  change (mapM f (x :: xs)) with (f x ≫= λ y, mapM f xs ≫= λ k, Ok (y :: k)).
  by rewrite Hy, bind_Ok, Hys, bind_Ok.
Qed.

Lemma sorted_returns {A} (key : A → result nat) xs :
  Forall (λ x, ∃ k, key x = Ok k) xs →
  ∃ l, sorted key xs = Ok l ∧ l ≡ₚ xs.
Proof.
  intros H. destruct (mapM_returns key xs H) as (ks & Hks & Hlen).
  unfold sorted. rewrite Hks, bind_Ok. eexists. split; [done|].
  rewrite stable_sort_perm. rewrite snd_zip by lia. done.
Qed.

Lemma wf_record_obj r : wf_record r = true → ∃ kvs, r = JObj kvs.
Proof. destruct r; try done. by eexists. Qed.

Lemma forallb_Forall {A} (p : A → bool) xs :
  forallb p xs = true → Forall (λ x, p x = true) xs.
Proof.
  intros H. apply Forall_forall. intros x Hx%list_elem_of_In.
  rewrite forallb_forall in H. auto.
Qed.

Lemma generate_html_total self now :
  forallb wf_record (results self) = true →
  durations_in_range (results self) = true →
  ∃ doc, generate_html str_lower container_str self now = Ok doc.
Proof.
  intros Hwf Hrange.
  unfold durations_in_range in Hrange.
  apply andb_true_iff in Hrange as [Heach Htotal].
  apply forallb_Forall in Hwf as Hwf'. apply forallb_Forall in Heach.
  unfold generate_html, get_statistics.
  destruct (count_results_returns (results self) initial_stats Hwf) as (stats & -> & Hkeys);
    [by eexists|]. rewrite bind_Ok.
  destruct (total_duration_of (results self)) as [total|] eqn:Et; [|done].
  apply Z.ltb_lt in Htotal. rewrite bind_Ok.
  destruct (sorted_returns sort_key (results self)) as (l & -> & Hperm).
  { eapply Forall_impl; [exact Hwf'|]. intros r [kvs ->]%wf_record_obj.
    by eexists. }
  rewrite bind_Ok. unfold py_item.
  destruct (Hkeys "total") as [? ->]; [by eexists|]. rewrite bind_Ok.
  destruct (Hkeys "passed") as [? ->]; [by eexists|]. rewrite bind_Ok.
  destruct (Hkeys "failed") as [? ->]; [by eexists|]. rewrite bind_Ok.
  destruct (Hkeys "skipped") as [? ->]; [by eexists|]. rewrite bind_Ok.
  destruct (format_duration_returns total Htotal) as [dt ->]. rewrite bind_Ok.
  destruct (for_enum_returns (render_card str_lower container_str self) l 0) as [cards ->].
  { rewrite Hperm. apply Forall_forall. intros r Hr i.
    rewrite Forall_forall in Hwf', Heach.
    specialize (Hwf' r Hr). specialize (Heach r Hr). simpl in Heach.
    destruct (duration_of r) as [d|] eqn:Ed; [|done].
    apply Z.ltb_lt in Heach. by eapply render_card_returns. }
  rewrite bind_Ok. by eexists.
Qed.


(** *** The statistics summary *)



End DocumentFacts.

(** ** Concrete runs *)




(** [attachments_resolution] on [two_entries] with the mapping [one_blob]. *)
Lemma attachments_resolution_witness :
  Forall (λ kvs, absent_or is_str kvs "source" = true) two_entries
  ∧ render_attachments no_container_str (gen_of [] one_blob)
      (JArr (JObj <$> two_entries))
    = Ok (attachments_open
          +:+ joined (resolved_entry no_container_str (gen_of [] one_blob)
                        <$> two_entries)
          +:+ attachments_close).
Proof.
  assert (Forall (λ kvs, absent_or is_str kvs "source" = true) two_entries) as H
    by (repeat constructor).
  split; [exact H|].
  apply (attachments_resolution ascii_lower no_container_str
           (gen_of [] one_blob) two_entries H).
Defined.




(** ** The statistics, exactly *)

Section StatisticsCounts.
Variable str_lower : string → string.

Lemma count_key_nil k : count_key str_lower k [] = 0.
Proof. done. Qed.

Lemma count_key_cons k r rs :
  count_key str_lower k (r :: rs)
  = (if decide (status_key str_lower r = Some k) then 1 else 0) + count_key str_lower k rs.
Proof.
  unfold count_key. rewrite filter_cons.
  case_decide; simpl; lia.
Qed.

Lemma count_key_nonneg k rs : 0 ≤ count_key str_lower k rs.
Proof. unfold count_key. lia. Qed.

Lemma count_key_perm k rs rs' : rs ≡ₚ rs' → count_key str_lower k rs = count_key str_lower k rs'.
Proof. intros H. unfold count_key. by rewrite H. Qed.

Lemma count_result_key (stats : gmap string Z) r :
  count_result str_lower stats r
  = match status_key str_lower r with
    | Some s =>
        let stats1 := <[s := default 0 (stats !! s) + 1]> stats in
        total ← py_item stats1 "total"; Ok (<["total" := total + 1]> stats1)
    | None => Raise AttributeError
    end.
Proof.
  unfold count_result, status_key, py_get, py_lower.
  destruct r as [| | | | |kvs]; try done. simpl.
  by destruct (default (JStr "unknown") (kvs !! "status")).
Qed.

(** The counters after the loop, from any counters that hold a total. *)
Lemma count_results_exact rs : ∀ (stats : gmap string Z) t,
  stats !! "total" = Some t →
  Forall (λ r, is_Some (status_key str_lower r)) rs →
  ∃ stats', count_results str_lower stats rs = Ok stats'
    ∧ (∀ k, k ≠ "total" →
         default 0 (stats' !! k) = default 0 (stats !! k) + count_key str_lower k rs)
    ∧ stats' !! "total"
      = Some (t + Z.of_nat (length rs) + count_key str_lower "total" rs)
    ∧ (∀ k, is_Some (stats' !! k) ↔ is_Some (stats !! k) ∨ 0 < count_key str_lower k rs).
Proof.
  induction rs as [|r rs IH]; intros stats t Ht Hrs.
  - exists stats. split; [done|]. split; [intros; rewrite count_key_nil; lia|].
    split; [rewrite Ht, count_key_nil; f_equal; simpl; lia|].
    intros k. rewrite count_key_nil. split; [auto|]. intros [|]; [done|lia].
  - apply Forall_cons in Hrs as [[s Hs] Hrs].
    cbn [count_results]. rewrite count_result_key, Hs. cbv zeta.
    set (stats1 := <[s := default 0 (stats !! s) + 1]> stats).
    assert (∃ t1, stats1 !! "total" = Some t1
                  ∧ t1 = t + (if decide (s = "total") then 1 else 0)) as (t1 & Ht1 & Et1).
    { subst stats1. destruct (decide (s = "total")) as [->|Hne].
      - rewrite lookup_insert_eq, Ht. eexists. split; [done|]. simpl. lia.
      - rewrite lookup_insert_ne by done. eexists. split; [done|]. lia. }
    unfold py_item. rewrite Ht1. cbn [mbind result_bind].
    set (stats2 := <["total" := t1 + 1]> stats1).
    destruct (IH stats2 (t1 + 1)) as (stats' & E & Hk & Htot & Hdom);
      [by subst stats2; rewrite lookup_insert_eq|done|].
    exists stats'. split; [done|]. split; [|split].
    + intros k Hne. rewrite Hk by done. rewrite count_key_cons, Hs.
      subst stats2 stats1. rewrite lookup_insert_ne by done.
      destruct (decide (s = k)) as [->|Hsk].
      * rewrite lookup_insert_eq. rewrite decide_True by done. simpl. lia.
      * rewrite lookup_insert_ne by done.
        rewrite decide_False by congruence. lia.
    + rewrite Htot. f_equal. rewrite count_key_cons, Hs. simpl length.
      destruct (decide (s = "total")) as [->|Hne].
      * rewrite decide_True by done. lia.
      * rewrite decide_False by congruence. lia.
    + intros k. rewrite Hdom, count_key_cons, Hs.
      pose proof (count_key_nonneg k rs).
      subst stats2 stats1.
      destruct (decide (k = "total")) as [->|Hkt].
      * rewrite lookup_insert_eq. split; [|intros _; left; by eexists].
        intros _. left. by eexists.
      * rewrite lookup_insert_ne by done.
        destruct (decide (s = k)) as [->|Hsk].
        -- rewrite lookup_insert_eq, decide_True by done.
           split; [intros _; right; lia|intros _; left; by eexists].
        -- rewrite lookup_insert_ne by done.
           rewrite decide_False by congruence.
           split; (intros [|]; [by left|right; lia]).
Qed.

Lemma count_results_raises rs : ∀ (stats : gmap string Z),
  is_Some (stats !! "total") →
  ¬ Forall (λ r, is_Some (status_key str_lower r)) rs →
  count_results str_lower stats rs = Raise AttributeError.
Proof.
  induction rs as [|r rs IH]; intros stats [t Ht] Hbad.
  - destruct Hbad. constructor.
  - cbn [count_results]. rewrite count_result_key.
    destruct (status_key str_lower r) as [s|] eqn:Hs; [|done]. cbv zeta.
    set (stats1 := <[s := default 0 (stats !! s) + 1]> stats).
    assert (is_Some (stats1 !! "total")) as [t1 Ht1].
    { subst stats1. rewrite lookup_insert. case_decide; by eexists. }
    unfold py_item. rewrite Ht1. cbn [mbind result_bind].
    apply IH; [rewrite lookup_insert_eq; by eexists|].
    intros Hrs. apply Hbad. constructor; [by rewrite Hs|done].
Qed.

(** X1: when every result is a dict whose status, if present, is a str,
    [get_statistics] returns counters that hold, under every key but the
    total, the number of results whose lower-cased status is that key, and
    under the total the number of results plus the number of those whose
    status lower-cases to the key of the total; the keys are the six initial
    ones and the statuses met. *)
Theorem get_statistics_counts self :
  Forall (λ r, is_Some (status_key str_lower r)) (results self) →
  ∃ stats, get_statistics str_lower self = Ok stats
    ∧ (∀ k, k ≠ "total" →
         default 0 (stats !! k) = count_key str_lower k (results self))
    ∧ stats !! "total"
      = Some (Z.of_nat (length (results self)) + count_key str_lower "total" (results self))
    ∧ (∀ k, is_Some (stats !! k)
            ↔ is_Some (initial_stats !! k) ∨ 0 < count_key str_lower k (results self)).
Proof.
  intros H. unfold get_statistics.
  destruct (count_results_exact (results self) initial_stats 0 eq_refl H)
    as (stats & E & Hk & Ht & Hdom).
  exists stats. split; [done|]. split; [|split; [|done]].
  - intros k Hne. rewrite Hk by done.
    assert (default 0 (initial_stats !! k) = 0) as ->; [|lia].
    destruct (initial_stats !! k) as [n|] eqn:En; [|done].
    apply elem_of_list_to_map_2 in En.
    repeat (apply elem_of_cons in En as [[= _ <-]|En]; [done|]).
    by apply elem_of_nil in En.
  - rewrite Ht. f_equal; lia.
Qed.

(** X2: [get_statistics] returns exactly when every result is a dict whose
    status, if present, is a str; otherwise it raises [AttributeError], and
    nothing else. *)
Theorem get_statistics_raises_only_attribute_error self :
  ((∃ stats, get_statistics str_lower self = Ok stats)
   ↔ Forall (λ r, is_Some (status_key str_lower r)) (results self))
  ∧ (∀ e, get_statistics str_lower self = Raise e → e = AttributeError).
Proof.
  destruct (decide (Forall (λ r, is_Some (status_key str_lower r)) (results self)))
    as [H|H].
  - destruct (count_results_exact (results self) initial_stats 0 eq_refl H)
      as (stats & E & _).
    unfold get_statistics. rewrite E. split; [|done].
    split; [done|]. intros _. by exists stats.
  - unfold get_statistics.
    rewrite count_results_raises; [|by eexists|done].
    split; [|by intros e [= <-]]. split; [by intros [? ?]|done].
Qed.

Lemma get_statistics_perm self1 self2 :
  results self1 ≡ₚ results self2 →
  get_statistics str_lower self1 = get_statistics str_lower self2.
Proof.
  intros Hp. unfold get_statistics.
  destruct (decide (Forall (λ r, is_Some (status_key str_lower r)) (results self1))) as [H1|H1].
  - assert (Forall (λ r, is_Some (status_key str_lower r)) (results self2)) as H2
      by (by rewrite <- Hp).
    destruct (count_results_exact _ initial_stats 0 eq_refl H1) as (s1 & -> & K1 & T1 & D1).
    destruct (count_results_exact _ initial_stats 0 eq_refl H2) as (s2 & -> & K2 & T2 & D2).
    f_equal. apply map_eq. intros k.
    destruct (decide (k = "total")) as [->|Hne].
    + rewrite T1, T2. f_equal. rewrite Hp at 1.
      by rewrite (count_key_perm _ _ _ Hp).
    + specialize (K1 k Hne). specialize (K2 k Hne).
      specialize (D1 k). specialize (D2 k).
      rewrite (count_key_perm _ _ _ Hp) in K1, D1.
      destruct (s1 !! k) as [n1|] eqn:E1, (s2 !! k) as [n2|] eqn:E2.
      * simpl in *. f_equal. lia.
      * exfalso. assert (is_Some (None : option Z)) as [? ?]; [|done].
        apply D2, D1. by eexists.
      * exfalso. assert (is_Some (None : option Z)) as [? ?]; [|done].
        apply D1, D2. by eexists.
      * done.
  - assert (¬ Forall (λ r, is_Some (status_key str_lower r)) (results self2)) as H2
      by (by rewrite <- Hp).
    rewrite !count_results_raises; [done|by eexists|done|by eexists|done].
Qed.

(** X3: the statistics do not depend on the order of the results: two
    generators whose results are a permutation of each other get the same
    counters, or the same exception. *)
Theorem get_statistics_order_independent self1 self2 :
  results self1 ≡ₚ results self2 →
  get_statistics str_lower self1 = get_statistics str_lower self2.
Proof. apply get_statistics_perm. Qed.

End StatisticsCounts.

(** ** The display order, further *)

Section SortFacts.
Context {A : Type}.
Implicit Types (l : list (nat * A)) (k : nat) (x : A).

Lemma insert_by_sorted k x l : keys_sorted l → keys_sorted (insert_by k x l).
Proof.
  induction l as [|[k' y] l IH]; simpl.
  - intros _. split; [constructor|done].
  - intros [Hall Hl]. destruct (Nat.leb_spec k k').
    + split; [|by split]. constructor; [done|].
      eapply Forall_impl; [exact Hall|]. simpl. intros; lia.
    + split; [|by apply IH].
      rewrite (insert_by_perm k x l). constructor; [simpl; lia|done].
Qed.

Lemma stable_sort_sorted l : keys_sorted (stable_sort l).
Proof.
  induction l as [|[k x] l IH]; [done|].
  change (stable_sort ((k, x) :: l)) with (insert_by k x (stable_sort l)).
  by apply insert_by_sorted.
Qed.

Lemma stable_sort_of_sorted l : keys_sorted l → stable_sort l = l.
Proof.
  induction l as [|[k x] l IH]; [done|]. intros [Hall Hl].
  change (stable_sort ((k, x) :: l)) with (insert_by k x (stable_sort l)).
  rewrite IH by done. by apply insert_by_before.
Qed.
End SortFacts.

Lemma mapM_ok {A B} (f : A → result B) xs ys :
  mapM f xs = Ok ys → Forall2 (λ x y, f x = Ok y) xs ys.
Proof.
  revert ys. induction xs as [|x xs IH]; intros ys H.
  - injection H as <-. constructor.
  - change (mapM f (x :: xs)) with (f x ≫= λ y, mapM f xs ≫= λ k, Ok (y :: k)) in H.
    apply bind_ok in H as (y & Hy & H). apply bind_ok in H as (k & Hk & H).
    injection H as <-. constructor; auto.
Qed.

Lemma mapM_of_Forall2 {A B} (f : A → result B) xs ys :
  Forall2 (λ x y, f x = Ok y) xs ys → mapM f xs = Ok ys.
Proof.
  induction 1 as [|x y xs ys Hy _ IH]; [done|].
  change (mapM f (x :: xs)) with (f x ≫= λ y, mapM f xs ≫= λ k, Ok (y :: k)).
  by rewrite Hy, bind_Ok, IH, bind_Ok.
Qed.

(** What [sorted] returns: the elements with their keys, in key order. *)
Lemma sorted_pairs {A} (key : A → result nat) xs l :
  sorted key xs = Ok l →
  ∃ ps, l = ps.*2 ∧ ps.*2 ≡ₚ xs ∧ keys_sorted ps
        ∧ Forall (λ p, key p.2 = Ok p.1) ps.
Proof.
  unfold sorted. intros H. apply bind_ok in H as (ks & Hks & H).
  injection H as <-. apply mapM_ok in Hks.
  exists (stable_sort (zip ks xs)). split; [done|].
  assert (length ks = length xs) as Hlen by (symmetry; by eapply Forall2_length).
  split; [|split].
  - rewrite stable_sort_perm. rewrite snd_zip by lia. done.
  - apply stable_sort_sorted.
  - rewrite stable_sort_perm. clear Hlen.
    induction Hks; [constructor|]. simpl. constructor; done.
Qed.

(** X4: the display order holds the same results as the loaded ones, each
    as often: it is a permutation of them, of the same length. *)
Theorem display_order_is_permutation rs l :
  sorted sort_key rs = Ok l → l ≡ₚ rs ∧ length l = length rs.
Proof.
  intros H. apply sorted_pairs in H as (ps & -> & Hp & _).
  split; [done|]. by rewrite Hp.
Qed.

(** X5: results in display order are left as they are when they are sorted
    for display again. *)
Theorem display_order_is_idempotent rs l :
  sorted sort_key rs = Ok l → sorted sort_key l = Ok l.
Proof.
  intros H. apply sorted_pairs in H as (ps & -> & _ & Hs & Hk).
  unfold sorted.
  rewrite (mapM_of_Forall2 sort_key (ps.*2) (ps.*1)).
  - rewrite bind_Ok. f_equal.
    by rewrite zip_fst_snd, stable_sort_of_sorted.
  - clear Hs. induction Hk as [|[k x] ps Hk _ IH]; [constructor|].
    simpl. constructor; done.
Qed.

(** ** The domain of the renderer *)


Lemma for_html_ok {A} (f : A → result string) xs s :
  for_html f xs = Ok s → Forall (λ x, ∃ t, f x = Ok t) xs.
Proof.
  revert s. induction xs as [|x xs IH]; intros s H; [constructor|].
  simpl in H. apply bind_ok in H as (t & Ht & H).
  apply bind_ok in H as (rest & Hr & _). constructor; [by eexists|by eapply IH].
Qed.



Section CardDomain.
Variable str_lower : string → string.
Variable container_str : json → string.




Lemma duration_of_domain kvs :
  returns (duration_of (JObj kvs))
  = is_num (default (JInt 0) (kvs !! "stop"))
    && is_num (default (JInt 0) (kvs !! "start")).
Proof.
  unfold duration_of. rewrite !py_get_obj, !bind_Ok.
  by destruct (default (JInt 0) (kvs !! "stop")),
              (default (JInt 0) (kvs !! "start")).
Qed.

End CardDomain.

Section DocumentDomain.
Variable str_lower : string → string.
Variable container_str : json → string.



End DocumentDomain.

(** ** The parts of the document *)






Lemma for_enum_texts {A} (f : nat → A → result string) xs : ∀ idx s,
  for_enum f idx xs = Ok s →
  ∃ texts, s = joined texts
    ∧ Forall2 (λ ix t, f ix.1 ix.2 = Ok t) (zip (seq idx (length xs)) xs) texts.
Proof.
  induction xs as [|x xs IH]; intros idx s H.
  - injection H as <-. exists []. split; [done|constructor].
  - simpl in H. apply bind_ok in H as (t & Ht & H).
    apply bind_ok in H as (rest & Hr & H). injection H as <-.
    destruct (IH _ _ Hr) as (texts & -> & Hall).
    exists (t :: texts). split; [done|]. simpl. by constructor.
Qed.

Section DocumentParts.
Variable str_lower : string → string.
Variable container_str : json → string.

(** What a rendered document is made of. *)
Lemma generate_html_parts self now doc :
  generate_html str_lower container_str self now = Ok doc →
  ∃ stats total passed failed skipped total_duration duration_text l texts,
    get_statistics str_lower self = Ok stats
    ∧ stats !! "total" = Some total ∧ stats !! "passed" = Some passed
    ∧ stats !! "failed" = Some failed ∧ stats !! "skipped" = Some skipped
    ∧ total_duration_of (results self) = Ok total_duration
    ∧ format_duration total_duration = Ok duration_text
    ∧ sorted sort_key (results self) = Ok l
    ∧ Forall2 (λ ix t, render_card str_lower container_str self ix.1 ix.2 = Ok t)
        (zip (seq 0 (length l)) l) texts
    ∧ doc = document_top now total passed failed skipped duration_text
            +:+ joined texts +:+ document_tail.
Proof.
  intros H. unfold generate_html in H.
  apply bind_ok in H as (stats & Es & H).
  apply bind_ok in H as (total_duration & Et & H).
  apply bind_ok in H as (l & El & H).
  apply bind_ok in H as (total & Etot & H).
  apply bind_ok in H as (passed & Ep & H).
  apply bind_ok in H as (failed & Ef & H).
  apply bind_ok in H as (skipped & Ek & H).
  apply bind_ok in H as (duration_text & Ed & H).
  apply bind_ok in H as (cards & Ec & H).
  injection H as <-.
  apply for_enum_texts in Ec as (texts & -> & Hall).
  unfold py_item in *.
  destruct (stats !! "total") eqn:Htotal; [injection Etot as ->|done].
  destruct (stats !! "passed") eqn:Hpassed; [injection Ep as ->|done].
  destruct (stats !! "failed") eqn:Hfailed; [injection Ef as ->|done].
  destruct (stats !! "skipped") eqn:Hskipped; [injection Ek as ->|done].
  exists stats, total, passed, failed, skipped, total_duration, duration_text, l, texts.
  repeat (split; [done|]).
  unfold document_top. by rewrite !append_assoc.
Qed.

(** X7: a document that [generate_html] returns is, in this order, its top
    (head, header and summary, written with the counters of [get_statistics]
    and the text of the summed durations), one card for each result, the
    card at position [i] being that of the [i]-th result of the display
    order numbered [i], and its tail. *)
Theorem document_is_top_cards_tail self now doc :
  generate_html str_lower container_str self now = Ok doc →
  ∃ stats total passed failed skipped total_duration duration_text l texts,
    get_statistics str_lower self = Ok stats
    ∧ stats !! "total" = Some total ∧ stats !! "passed" = Some passed
    ∧ stats !! "failed" = Some failed ∧ stats !! "skipped" = Some skipped
    ∧ total_duration_of (results self) = Ok total_duration
    ∧ format_duration total_duration = Ok duration_text
    ∧ sorted sort_key (results self) = Ok l
    ∧ length texts = length (results self)
    ∧ (∀ i r, l !! i = Some r →
         ∃ t, texts !! i = Some t
              ∧ render_card str_lower container_str self i r = Ok t)
    ∧ doc = document_top now total passed failed skipped duration_text
            +:+ joined texts +:+ document_tail.
Proof.
  intros H. apply generate_html_parts in H
    as (stats & total & passed & failed & skipped & td & dt & l & texts
        & Hs & Ht & Hp & Hf & Hk & Htd & Hdt & Hl & Hall & ->).
  exists stats, total, passed, failed, skipped, td, dt, l, texts.
  repeat (split; [done|]).
  apply sorted_pairs in Hl as Hl'. destruct Hl' as (ps & Eps & Hperm & _).
  split; [|split; [|done]].
  - apply Forall2_length in Hall. rewrite <- Hall.
    rewrite length_zip_with, length_seq. rewrite Nat.min_id.
    rewrite Eps. by rewrite Hperm.
  - intros i r Hi.
    assert (zip (seq 0 (length l)) l !! i = Some (i, r)) as Hz.
    { apply lookup_zip_with_Some. exists i, r. split; [done|]. split; [|done].
      apply lookup_seq. split; [done|]. by eapply lookup_lt_Some. }
    destruct (Forall2_lookup_l _ _ _ _ _ Hall Hz) as (t & Ht' & Hr).
    by exists t.
Qed.

End DocumentParts.

(** ** Text fields in the document *)

Lemma occurs_empty s : occurs EmptyString s = true.
Proof. by rewrite occurs_unfold. Qed.

Lemma truthy_str_or_empty c s : occurs c s = true → truthy (JStr s) = true ∨ c = EmptyString.
Proof.
  destruct s; [|by left]. rewrite occurs_unfold, orb_false_r.
  destruct c; [by right|done].
Qed.

Lemma for_html_occurs {A} (f : A → result string) xs body x t c :
  for_html f xs = Ok body → x ∈ xs → f x = Ok t →
  occurs c t = true → occurs c body = true.
Proof.
  intros H Hx Ht Hc. revert body H.
  induction Hx as [x xs|x y xs _ IH]; intros body H; simpl in H.
  - rewrite Ht, bind_Ok in H. apply bind_ok in H as (rest & _ & [= <-]).
    by apply occurs_append_l.
  - apply bind_ok in H as (t' & _ & H). apply bind_ok in H as (rest & Hr & [= <-]).
    apply occurs_append_r. by apply IH.
Qed.

Lemma str_of_elem s v : s ∈ str_of v → v = Some (JStr s).
Proof.
  destruct v as [[]|]; simpl; try (by intros ?%elem_of_nil).
  by intros ->%list_elem_of_singleton.
Qed.

Lemma strs_under_elem k s v :
  s ∈ strs_under k v →
  ∃ xs d, v = Some (JArr xs) ∧ JObj d ∈ xs ∧ d !! k = Some (JStr s).
Proof.
  destruct v as [[]|]; simpl; try (by intros ?%elem_of_nil).
  intros (x & Hs & Hx)%list_elem_of_bind.
  destruct x; try (by apply elem_of_nil in Hs).
  apply str_of_elem in Hs. eauto.
Qed.

(** A text that occurs in a part of a concatenation occurs in the whole. *)
Ltac occurs_in H :=
  first
    [ exact H
    | apply occurs_append_l; occurs_in H
    | apply occurs_append_r; occurs_in H ].

Lemma occurs_card_head_name c idx color icon name full_name duration :
  occurs c name = true →
  occurs c (card_head idx color icon name full_name duration) = true.
Proof. intros H. unfold card_head. occurs_in H. Qed.

Lemma occurs_card_head_full_name c idx color icon name full_name duration :
  occurs c full_name = true →
  occurs c (card_head idx color icon name full_name duration) = true.
Proof.
  intros H. unfold card_head. occurs_in H.
Qed.

Lemma occurs_render_error_message (container_str : json → string) c s trace :
  occurs c s = true →
  occurs c (render_error container_str (JStr s) trace) = true.
Proof.
  intros H. destruct (truthy_str_or_empty _ _ H) as [Ht| ->]; [|apply occurs_empty].
  unfold render_error. rewrite Ht, orb_true_l. cbv iota.
  change (py_str container_str (JStr s)) with s.
  unfold error_message_div. occurs_in H.
Qed.

Lemma occurs_render_error_trace (container_str : json → string) c s message :
  occurs c s = true →
  occurs c (render_error container_str message (JStr s)) = true.
Proof.
  intros H. destruct (truthy_str_or_empty _ _ H) as [Ht| ->]; [|apply occurs_empty].
  unfold render_error. rewrite Ht, orb_true_r. cbv iota.
  change (py_str container_str (JStr s)) with s.
  unfold error_trace_div. occurs_in H.
Qed.

Lemma truthy_of_elem (x : json) xs : x ∈ xs → truthy (JArr xs) = true.
Proof. by intros [? ?|? ? ? ?]. Qed.

Section TextFields.
Variable str_lower : string → string.
Variable container_str : json → string.

Lemma occurs_render_labels c xs d html :
  render_labels container_str (JArr xs) = Ok html → JObj d ∈ xs →
  occurs c (py_str container_str (default (JStr EmptyString) (d !! "name"))) = true
  ∨ occurs c (py_str container_str (default (JStr EmptyString) (d !! "value"))) = true →
  occurs c html = true.
Proof.
  intros H Hd Hc. unfold render_labels in H. rewrite (truthy_of_elem _ _ Hd) in H.
  simpl in H. apply bind_ok in H as (body & Hb & [= <-]).
  apply occurs_append_r, occurs_append_l.
  eapply for_html_occurs; [exact Hb|exact Hd|reflexivity|].
  unfold label_span. destruct Hc as [Hc|Hc]; occurs_in Hc.
Qed.

Lemma occurs_render_steps c xs d html :
  render_steps container_str (JArr xs) = Ok html → JObj d ∈ xs →
  occurs c (py_str container_str (default (JStr "Unknown Step") (d !! "name"))) = true →
  occurs c html = true.
Proof.
  intros H Hd Hc. unfold render_steps in H. rewrite (truthy_of_elem _ _ Hd) in H.
  simpl in H. apply bind_ok in H as (body & Hb & [= <-]).
  apply occurs_append_r, occurs_append_l.
  eapply for_html_occurs; [exact Hb|exact Hd|reflexivity|].
  unfold step_div. occurs_in Hc.
Qed.

(** The parts of a rendered card. *)
Lemma render_card_parts self idx kvs card :
  render_card str_lower container_str self idx (JObj kvs) = Ok card →
  ∃ s duration duration_text details labels_html steps_html atts_html,
    default (JStr "unknown") (kvs !! "status") = JStr s
    ∧ duration_of (JObj kvs) = Ok duration
    ∧ format_duration duration = Ok duration_text
    ∧ default (JObj ∅) (kvs !! "statusDetails") = JObj details
    ∧ render_labels container_str (default (JArr []) (kvs !! "labels")) = Ok labels_html
    ∧ render_steps container_str (default (JArr []) (kvs !! "steps")) = Ok steps_html
    ∧ render_attachments container_str self (default (JArr []) (kvs !! "attachments"))
      = Ok atts_html
    ∧ card
      = card_head (pretty idx) (get_status_color str_lower (str_lower s))
          (get_status_icon str_lower (str_lower s))
          (py_str container_str (default (JStr "Unknown Test") (kvs !! "name")))
          (py_str container_str
             (default (default (JStr "Unknown Test") (kvs !! "name")) (kvs !! "fullName")))
          duration_text
        +:+ labels_html +:+ steps_html
        +:+ render_error container_str
              (default (JStr EmptyString) (details !! "message"))
              (default (JStr EmptyString) (details !! "trace"))
        +:+ atts_html +:+ card_close.
Proof.
  unfold render_card. intros H.
  apply bind_ok in H as (v & Ev & H). apply py_get_ok in Ev as (kvs' & [= <-] & ->).
  apply bind_ok in H as (status & Es & H). unfold py_lower in Es.
  destruct (default (JStr "unknown") (kvs !! "status")) as [| | |s| |] eqn:Est; try done.
  injection Es as <-.
  repeat (progress (rewrite ?py_get_obj, ?bind_Ok in H)).
  apply bind_ok in H as (duration & Ed & H).
  repeat (progress (rewrite ?py_get_obj, ?bind_Ok in H)).
  apply bind_ok in H as (msg & Em & H). apply py_get_ok in Em as (d & Edet & ->).
  apply bind_ok in H as (trace & Et & H). apply py_get_ok in Et as (d' & Ed' & ->).
  rewrite Edet in Ed'. injection Ed' as <-.
  apply bind_ok in H as (duration_text & Edt & H).
  apply bind_ok in H as (labels_html & El & H).
  apply bind_ok in H as (steps_html & Est' & H).
  apply bind_ok in H as (atts_html & Ea & H).
  injection H as <-.
  by exists s, duration, duration_text, d, labels_html, steps_html, atts_html.
Qed.

(** A text field of a record is part of its card as it is. *)
Lemma render_card_text_field self idx kvs card s c :
  render_card str_lower container_str self idx (JObj kvs) = Ok card →
  s ∈ text_fields kvs → occurs c s = true → occurs c card = true.
Proof.
  intros H Hs Hc.
  apply render_card_parts in H
    as (st & duration & dt & details & lh & sh & ah
        & _ & _ & _ & Edet & El & Est & _ & ->).
  unfold text_fields in Hs. rewrite !elem_of_app in Hs.
  destruct Hs as [Hs|[Hs|[Hs|[Hs|[Hs|Hs]]]]].
  - apply str_of_elem in Hs. apply occurs_append_l, occurs_card_head_name.
    by rewrite Hs.
  - apply str_of_elem in Hs. apply occurs_append_l, occurs_card_head_full_name.
    by rewrite Hs.
  - do 3 apply occurs_append_r. apply occurs_append_l.
    destruct (kvs !! "statusDetails") as [[| | | | |d]|] eqn:Ed;
      try (by apply elem_of_nil in Hs).
    injection Edet as <-. apply elem_of_app in Hs as [Hs|Hs]; apply str_of_elem in Hs;
      rewrite Hs; simpl.
    + by apply occurs_render_error_message.
    + by apply occurs_render_error_trace.
  - apply strs_under_elem in Hs as (xs & d & E & Hd & Hk). rewrite E in El.
    apply occurs_append_r, occurs_append_l.
    eapply occurs_render_labels; [exact El|exact Hd|]. left. by rewrite Hk.
  - apply strs_under_elem in Hs as (xs & d & E & Hd & Hk). rewrite E in El.
    apply occurs_append_r, occurs_append_l.
    eapply occurs_render_labels; [exact El|exact Hd|]. right. by rewrite Hk.
  - apply strs_under_elem in Hs as (xs & d & E & Hd & Hk). rewrite E in Est.
    do 2 apply occurs_append_r. apply occurs_append_l.
    eapply occurs_render_steps; [exact Est|exact Hd|]. by rewrite Hk.
Qed.

(** X9: text fields are written into the document as they are, markup
    included: whatever text occurs in the name, the full name, the message
    or trace of the status details, the name or value of a label or the name
    of a step of a result occurs in the document that [generate_html]
    returns. *)
Theorem text_fields_are_not_escaped self now doc kvs s c :
  generate_html str_lower container_str self now = Ok doc →
  JObj kvs ∈ results self → s ∈ text_fields kvs → occurs c s = true →
  occurs c doc = true.
Proof.
  intros H Hr Hs Hc.
  apply generate_html_parts in H
    as (stats & total & passed & failed & skipped & td & dt & l & texts
        & _ & _ & _ & _ & _ & _ & _ & Hl & Hall & ->).
  apply sorted_pairs in Hl as (ps & Eps & Hperm & _).
  assert (JObj kvs ∈ l) as Hin by (by rewrite Eps, Hperm).
  apply list_elem_of_lookup in Hin as [i Hi].
  assert (zip (seq 0 (length l)) l !! i = Some (i, JObj kvs)) as Hz.
  { apply lookup_zip_with_Some. exists i, (JObj kvs). split; [done|]. split; [|done].
    apply lookup_seq. split; [done|]. by eapply lookup_lt_Some. }
  destruct (Forall2_lookup_l _ _ _ _ _ Hall Hz) as (t & Ht & Hcard). simpl in Hcard.
  unfold document_top. rewrite !append_assoc.
  do 4 apply occurs_append_r. apply occurs_append_l.
  eapply occurs_joined; [by eapply list_elem_of_lookup_2|].
  by eapply render_card_text_field.
Qed.
End TextFields.

(** ** [format_duration], further *)

(** The rounded quotient reaches an even [k] from half a unit below it. *)
Lemma div_half_even_reaches n d k :
  0 < d → Z.even k = true → (k ≤ div_half_even n d ↔ d * (2 * k - 1) ≤ 2 * n).
Proof.
  intros Hd Hk.
  pose proof (div_half_even_error n d Hd) as He.
  pose proof (div_half_even_tie n d Hd) as Ht.
  set (m := div_half_even n d) in *.
  split; intros H.
  - assert (d * k ≤ d * m) by (apply Z.mul_le_mono_nonneg_l; lia). lia.
  - destruct (Z.le_gt_cases k m) as [|Hlt]; [done|exfalso].
    assert (d * m ≤ d * (k - 1)) as Hle by (apply Z.mul_le_mono_nonneg_l; lia).
    assert (m = k - 1) as Em.
    { destruct (Z.le_gt_cases (k - 1) m) as [|Hlt']; [lia|].
      assert (d * m ≤ d * (k - 2)) by (apply Z.mul_le_mono_nonneg_l; lia). lia. }
    rewrite Em in Ht. rewrite Em in He.
    assert (Z.even (k - 1) = true) as Hodd by (apply Ht; lia).
    rewrite Z.even_sub, Hk in Hodd. done.
Qed.

(** Where [round_to_double] leaves the finite range. *)
Lemma round_to_double_overflows a b :
  0 < a → 0 < b →
  (round_to_double a b = None ↔ b * (2 ^ 1024 - 2 ^ 970) ≤ a).
Proof.
  intros Ha Hb.
  assert (2 ^ 1024 = 2 ^ 54 * 2 ^ 970) as E1024 by (by vm_compute).
  assert (2 ^ 1023 = 2 ^ 53 * 2 ^ 970) as E1023 by (by vm_compute).
  assert (2 ^ 971 = 2 * 2 ^ 970) as E971 by (by vm_compute).
  pose proof (pow2_pos 970 ltac:(lia)) as Hp.
  destruct (ratio_ltb a b 1023) eqn:Hlt.
  { destruct (round_to_double_finite a b) as (x & -> & _); [lia|done|done|].
    rewrite ratio_ltb_nonneg in Hlt by lia. apply Z.ltb_lt in Hlt.
    split; [done|]. intros H. exfalso.
    assert (b * (2 ^ 53 * 2 ^ 970) < b * (2 ^ 54 * 2 ^ 970 - 2 ^ 970)); [|lia].
    apply Z.mul_lt_mono_pos_l; lia. }
  unfold round_to_double.
  destruct (a =? 0) eqn:Ea; [apply Z.eqb_eq in Ea; lia|].
  destruct (floor_log2_ratio_spec a b Ha Hb) as [Hlo Hup].
  set (l := floor_log2_ratio a b) in *.
  assert (1023 ≤ l) as Hl.
  { destruct (Z.le_gt_cases 1023 l) as [|H]; [done|].
    rewrite (ratio_ltb_mono a b (l + 1) 1023) in Hlt; [done|lia|done|lia|done]. }
  set (e := Z.max (l - 52) (-1074)).
  assert (e = l - 52) as Ee by lia.
  rewrite (Z.max_l 0 (- e)), (Z.max_r 0 e), Z.pow_0_r, Z.mul_1_r by lia.
  rewrite Z.shiftl_mul_pow2 by lia.
  pose proof (pow2_pos e ltac:(lia)) as Hpe.
  rewrite ratio_ltb_nonneg in Hlo by lia. apply Z.ltb_ge in Hlo.
  rewrite ratio_ltb_nonneg in Hup by lia. apply Z.ltb_lt in Hup.
  set (m := div_half_even a (b * 2 ^ e)).
  destruct (Z.le_gt_cases 1024 l) as [Hbig|Hsmall].
  - (* the quotient is at least [2 ^ 1024] *)
    assert (2 ^ 52 ≤ m) as Hm.
    { pose proof (div_half_even_bounds a (b * 2 ^ e) ltac:(lia) ltac:(lia)) as [Hm _].
      assert (2 ^ 52 ≤ a / (b * 2 ^ e)); [|fold m in Hm; lia].
      apply Z.div_le_lower_bound; [lia|].
      replace l with (e + 52) in Hlo by lia. rewrite pow2_split in Hlo by lia. lia. }
    assert (2 ^ 972 ≤ 2 ^ e) as He by (apply Z.pow_le_mono_r; lia).
    assert (2 ^ 1024 ≤ m * 2 ^ e) as Hover.
    { assert (2 ^ 1024 = 2 ^ 52 * 2 ^ 972) as -> by (by vm_compute).
      apply Z.mul_le_mono_nonneg; lia. }
    destruct (Z.leb_spec (2 ^ 1024) (m * 2 ^ e)); [|lia].
    split; [|done]. intros _.
    assert (2 ^ 1024 ≤ 2 ^ l) as Hpl by (apply Z.pow_le_mono_r; lia).
    assert (b * (2 ^ 1024 - 2 ^ 970) ≤ b * 2 ^ l); [|lia].
    apply Z.mul_le_mono_nonneg_l; lia.
  - (* the quotient is in the last binade *)
    assert (l = 1023) as El by lia. assert (e = 971) as Ee' by lia.
    subst m. rewrite Ee'. rewrite E971.
    set (m := div_half_even a (b * (2 * 2 ^ 970))).
    pose proof (div_half_even_reaches a (b * (2 * 2 ^ 970)) (2 ^ 53) ltac:(lia)
                  ltac:(by vm_compute)) as Hr.
    fold m in Hr.
    assert (2 ^ 53 * (2 * 2 ^ 970) = 2 ^ 1024) as E by (by vm_compute).
    destruct (Z.leb_spec (2 ^ 1024) (m * (2 * 2 ^ 970))) as [Hge|Hlt'].
    + split; [|done]. intros _.
      assert (2 ^ 53 ≤ m) as Hm.
      { destruct (Z.le_gt_cases (2 ^ 53) m) as [|Hm]; [done|exfalso].
        assert (m * (2 * 2 ^ 970) < 2 ^ 53 * (2 * 2 ^ 970))
          by (apply Z.mul_lt_mono_pos_r; lia). lia. }
      apply Hr in Hm.
      replace (b * (2 * 2 ^ 970) * (2 * 2 ^ 53 - 1))
        with (2 * (b * (2 ^ 53 * (2 * 2 ^ 970) - 2 ^ 970))) in Hm by lia.
      rewrite E in Hm. lia.
    + split; [done|]. intros H. exfalso.
      assert (2 ^ 53 ≤ m) as Hm.
      { apply Hr.
        replace (b * (2 * 2 ^ 970) * (2 * 2 ^ 53 - 1))
          with (2 * (b * (2 ^ 53 * (2 * 2 ^ 970) - 2 ^ 970))) by lia.
        rewrite E. lia. }
      assert (2 ^ 53 * (2 * 2 ^ 970) ≤ m * (2 * 2 ^ 970))
        by (apply Z.mul_le_mono_nonneg_r; lia). lia.
Qed.

Lemma round_to_double_some_finite a b x :
  0 ≤ a → 0 < b → round_to_double a b = Some x → finite_double x.
Proof.
  intros Ha Hb. unfold round_to_double.
  destruct (a =? 0).
  { intros [= <-]. split; simpl; [lia|]. rewrite Z.shiftl_0_l. by apply pow2_pos. }
  set (e := Z.max _ (-1074)).
  set (n := a * 2 ^ Z.max 0 (- e)). set (d := b * 2 ^ Z.max 0 e).
  assert (0 ≤ n) by (pose proof (pow2_pos (Z.max 0 (- e)) ltac:(lia)); subst n; nia).
  assert (0 < d) by (pose proof (pow2_pos (Z.max 0 e) ltac:(lia)); subst d; nia).
  pose proof (div_half_even_bounds n d ltac:(done) ltac:(done)) as [Hm _].
  assert (0 ≤ n / d) by (apply Z.div_pos; lia).
  destruct (Z.leb_spec (2 ^ 1024) (Z.shiftl (div_half_even n d) e)); [done|].
  intros [= <-]. split; simpl; [lia|done].
Qed.

(** Where [format_duration] returns, and what it raises elsewhere. *)
Lemma format_duration_domain d :
  (d < overflow_threshold → ∃ s, format_duration d = Ok s)
  ∧ (overflow_threshold ≤ d → format_duration d = Raise OverflowError).
Proof.
  assert (1000 < overflow_threshold) as Hthr by (by vm_compute).
  unfold format_duration. destruct (Z.ltb_spec d 1000) as [Hs|Hl].
  { split; [by eexists|lia]. }
  unfold int_true_div.
  pose proof (round_to_double_overflows d 1000 ltac:(lia) ltac:(lia)) as Ho.
  fold overflow_threshold in Ho.
  destruct (round_to_double d 1000) as [x|] eqn:Ex.
  - split; [intros _|intros H; apply Ho in H; done].
    rewrite bind_Ok.
    destruct (float_lt_int x 60); [by eexists|].
    apply round_to_double_some_finite in Ex; [|lia..].
    destruct (int_float_div_total x 60 Ex ltac:(lia)) as [q ->]. by eexists.
  - split; [|done]. intros H. assert (overflow_threshold ≤ d) by (by apply Ho). lia.
Qed.




Section DocumentDomainExact.
Variable str_lower : string → string.
Variable container_str : json → string.

End DocumentDomainExact.

(** A quotient below [2 ^ j], [j] at most 52, has binary places: the
    exponent of its double is negative, and the mantissa is the nearest
    integer to the quotient scaled by [p = 2 ^ (- e)]. *)
Lemma round_to_double_places a b j m e :
  0 < a → 0 < b → 0 ≤ j ≤ 52 → a < b * 2 ^ j →
  round_to_double a b = Some (Dbl m e) →
  e < 0 ∧ 2 ^ (53 - j) ≤ 2 ^ (- e)
  ∧ - b ≤ 2 * (b * m - a * 2 ^ (- e)) ≤ b.
Proof.
  intros Ha Hb Hj Hlt Hx.
  destruct (round_to_double_nearest a b m e Ha Hb Hx) as (Hmin & _ & _ & Hn).
  assert (e ≤ j - 53) as He.
  { revert Hx. unfold round_to_double.
    destruct (a =? 0) eqn:Ea; [apply Z.eqb_eq in Ea; lia|].
    destruct (floor_log2_ratio_spec a b Ha Hb) as [Hlo _].
    set (l := floor_log2_ratio a b) in *.
    destruct (2 ^ 1024 <=? _); [done|]. intros [= _ <-].
    assert (l < j); [|lia].
    destruct (Z.le_gt_cases j l) as [H|H]; [|done].
    rewrite (ratio_ltb_mono a b j l) in Hlo; [done|lia|lia|done|].
    rewrite ratio_ltb_nonneg by lia. by apply Z.ltb_lt. }
  rewrite (Z.max_l 0 e), (Z.max_r 0 (- e)), Z.pow_0_r, Z.mul_1_r in Hn by lia.
  split; [lia|]. split; [apply Z.pow_le_mono_r; lia|done].
Qed.

(** From a minute up to [2 ^ 45] milliseconds: the minutes are the whole
    minutes of the duration and the hundredths the nearest to the rest. *)
Lemma minutes_exact ms :
  60000 ≤ ms < 2 ^ 45 →
  ∃ h, 0 ≤ h ≤ 6000 ∧ -5 ≤ 10 * h - ms `mod` 60000 ≤ 5
       ∧ format_duration ms
         = Ok (pretty (ms / 60000) +:+ "m " +:+ fixed2 h +:+ "s").
Proof.
  intros [Hlo Hhi].
  assert (2 ^ 45 = 35184372088832) as E45 by done. rewrite E45 in Hhi.
  pose proof (Z.div_mod ms 60000 ltac:(lia)) as Hdm.
  pose proof (Z.mod_pos_bound ms 60000 ltac:(lia)) as Hr.
  set (k := ms / 60000) in *. set (r := ms `mod` 60000) in *.
  assert (1 ≤ k < 586406202) as Hk by lia.
  unfold format_duration. destruct (Z.ltb_spec ms 1000); [lia|].
  (* the seconds *)
  destruct (int_true_div_finite ms) as (x & Ex & Hx).
  { split; [lia|]. assert (35184372088832 < 2 ^ 1024) by (by vm_compute). lia. }
  rewrite Ex, bind_Ok. unfold int_true_div in Ex.
  destruct (round_to_double ms 1000) as [y|] eqn:Ey; [|done].
  injection Ex as ->. destruct x as [m1 e1].
  destruct (round_to_double_places ms 1000 36 m1 e1) as (He1 & Hp & Hn1);
    [lia|lia|lia| |done|].
  { change (2 ^ 36) with 68719476736. lia. }
  change (2 ^ (53 - 36)) with 131072 in Hp.
  assert (Hge := Ey). apply (round_to_double_ge _ _ (60 * k)) in Hge; [|lia| |lia].
  2:{ assert (2 ^ 52 = 4503599627370496) as -> by done. lia. }
  cbn [mant expo] in Hge.
  rewrite (Z.max_l 0 e1), (Z.max_r 0 (- e1)), Z.pow_0_r, Z.mul_1_r in Hge by lia.
  set (p := 2 ^ (- e1)) in *.
  assert (ms * p = 60000 * (k * p) + r * p) as Emsp by (rewrite Hdm; ring).
  assert (0 ≤ r * p ≤ 59999 * p) as Hrp.
  { split; [apply Z.mul_nonneg_nonneg; lia|apply Z.mul_le_mono_nonneg_r; lia]. }
  assert (1 * p ≤ k * p) as Hkp by (apply Z.mul_le_mono_nonneg_r; lia).
  assert (m1 < 60 * (k * p) + 60 * p) as Hup1 by lia.
  assert (float_lt_int (Dbl m1 e1) 60 = false) as ->.
  { unfold float_lt_int. cbn [mant expo].
    rewrite (Z.max_l 0 e1), (Z.max_r 0 (- e1)), Z.pow_0_r, Z.mul_1_r by lia.
    apply Z.ltb_ge. fold p. lia. }
  (* the minutes *)
  unfold int_float_div. cbn [mant expo].
  rewrite (Z.max_l 0 e1), (Z.max_r 0 (- e1)), Z.pow_0_r, Z.mul_1_r by lia. fold p.
  destruct (round_to_double_finite m1 (60 * p)) as ([m2 e2] & Ez & _); [lia|lia| |].
  { rewrite ratio_ltb_nonneg by lia. apply Z.ltb_lt.
    assert (2 ^ 1023 = 2 ^ 30 * 2 ^ 993) as -> by (by vm_compute).
    pose proof (pow2_pos 993 ltac:(lia)).
    change (2 ^ 30) with 1073741824.
    assert (k * p ≤ 586406202 * p) by (apply Z.mul_le_mono_nonneg_r; lia).
    assert (60 * p * 1073741824 * 1 ≤ 60 * p * 1073741824 * 2 ^ 993)
      by (apply Z.mul_le_mono_nonneg_l; lia).
    lia. }
  rewrite Ez. cbn [mant expo].
  destruct (round_to_double_places m1 (60 * p) 30 m2 e2) as (He2 & Hp2 & Hn2);
    [lia|lia|lia| |done|].
  { change (2 ^ 30) with 1073741824.
    assert (k * p ≤ 586406202 * p) by (apply Z.mul_le_mono_nonneg_r; lia). lia. }
  change (2 ^ (53 - 30)) with 8388608 in Hp2.
  assert (Hge2 := Ez). apply (round_to_double_ge _ _ k) in Hge2; [|lia| |lia].
  2:{ assert (2 ^ 52 = 4503599627370496) as -> by done. lia. }
  cbn [mant expo] in Hge2.
  rewrite (Z.max_l 0 e2), (Z.max_r 0 (- e2)), Z.pow_0_r, Z.mul_1_r in Hge2 by lia.
  set (p2 := 2 ^ (- e2)) in *.
  assert (Z.shiftl m2 e2 = k) as ->.
  { rewrite Z.shiftl_div_pow2 by lia. fold p2.
    symmetry. apply (Z.div_unique_pos m2 p2 k (m2 - k * p2)); [|lia].
    split; [lia|].
    destruct (Z.lt_ge_cases m2 ((k + 1) * p2)) as [|Hbig]; [lia|exfalso].
    assert (p * ((k + 1) * p2) ≤ p * m2) as H1
      by (apply Z.mul_le_mono_nonneg_l; lia).
    assert (1000 * m1 * p2 ≤ (60000 * (k * p) + 59999 * p + 500) * p2) as H2
      by (apply Z.mul_le_mono_nonneg_r; lia).
    assert (131072 * p2 ≤ p * p2) as H3 by (apply Z.mul_le_mono_nonneg_r; lia).
    assert (p * 8388608 ≤ p * p2) as H4 by (apply Z.mul_le_mono_nonneg_l; lia).
    replace (p * ((k + 1) * p2)) with (k * p * p2 + p * p2) in H1 by ring.
    replace ((60000 * (k * p) + 59999 * p + 500) * p2)
      with (60000 * (k * p * p2) + 59999 * (p * p2) + 500 * p2) in H2 by ring.
    replace (60 * p * m2) with (60 * (p * m2)) in Hn2 by ring.
    replace (1000 * m1 * p2) with (1000 * (m1 * p2)) in H2 by ring.
    lia. }
  (* the seconds left *)
  rewrite bind_Ok.
  assert (float_mod_int (Dbl m1 e1) 60 = Dbl (m1 - 60 * (k * p)) e1) as ->.
  { unfold float_mod_int. cbn [mant expo].
    destruct (Z.leb_spec 0 e1); [lia|]. f_equal. fold p.
    symmetry. apply (Z.mod_unique_pos m1 (60 * p) k); [lia|ring]. }
  unfold format_2f, hundredths. cbn [mant expo].
  rewrite (Z.max_l 0 e1), (Z.max_r 0 (- e1)), Z.pow_0_r, Z.mul_1_r by lia. fold p.
  pose proof (div_half_even_error (100 * (m1 - 60 * (k * p))) p ltac:(lia)) as Hh.
  pose proof (div_half_even_bounds (100 * (m1 - 60 * (k * p))) p ltac:(lia) ltac:(lia))
    as [Hh0 _].
  assert (0 ≤ 100 * (m1 - 60 * (k * p)) / p) by (apply Z.div_pos; lia).
  set (h := div_half_even (100 * (m1 - 60 * (k * p))) p) in *.
  exists h.
  assert (-5 ≤ 10 * h - r ≤ 5) as Hhr.
  { assert (-6 < 10 * h - r < 6); [|lia].
    split.
    - destruct (Z.lt_ge_cases (-6) (10 * h - r)) as [|Hc]; [done|exfalso].
      assert (p * (10 * h - r) ≤ p * (-6)) by (apply Z.mul_le_mono_nonneg_l; lia).
      replace (p * (10 * h - r)) with (10 * (p * h) - r * p) in * by ring. lia.
    - destruct (Z.lt_ge_cases (10 * h - r) 6) as [|Hc]; [done|exfalso].
      assert (p * 6 ≤ p * (10 * h - r)) by (apply Z.mul_le_mono_nonneg_l; lia).
      replace (p * (10 * h - r)) with (10 * (p * h) - r * p) in * by ring. lia. }
  split; [lia|]. split; [done|]. done.
Qed.

(** X11: from a minute up to [2 ^ 45] milliseconds (over a thousand years),
    [format_duration] writes the whole minutes of the duration, exactly, and
    the rest of it in seconds, rounded to the nearest hundredth. *)
Theorem format_duration_whole_minutes ms :
  60000 ≤ ms < 2 ^ 45 →
  ∃ h, 0 ≤ h ≤ 6000 ∧ -5 ≤ 10 * h - ms `mod` 60000 ≤ 5
       ∧ format_duration ms
         = Ok (pretty (ms / 60000) +:+ "m " +:+ fixed2 h +:+ "s").
Proof. apply minutes_exact. Qed.

(** [format_duration_whole_minutes] at two minutes and a half. *)
Lemma format_duration_whole_minutes_witness :
  60000 ≤ 150000 < 2 ^ 45
  ∧ ∃ h, 0 ≤ h ≤ 6000 ∧ -5 ≤ 10 * h - 150000 `mod` 60000 ≤ 5
         ∧ format_duration 150000
           = Ok (pretty (150000 / 60000) +:+ "m " +:+ fixed2 h +:+ "s").
Proof.
  assert (60000 ≤ 150000 < 2 ^ 45) as H by (by vm_compute).
  split; [exact H|]. apply (format_duration_whole_minutes 150000 H).
Defined.

(** X12: seconds that round up to sixty are not carried: a duration of at
    most [2 ^ 45] milliseconds that is less than 5 milliseconds short of a
    whole minute is written with [60.00] seconds, after the minutes before
    it. *)
Theorem format_duration_shows_sixty_seconds ms :
  0 ≤ ms < 2 ^ 45 → 59995 < ms `mod` 60000 →
  format_duration ms
  = Ok (if ms <? 60000 then "60.00s" else pretty (ms / 60000) +:+ "m 60.00s").
Proof.
  intros [Hlo Hhi] Hr.
  pose proof (Z.mod_pos_bound ms 60000 ltac:(lia)) as Hb.
  destruct (Z.ltb_spec ms 60000) as [Hs|Hl].
  - rewrite Z.mod_small in Hr by lia.
    destruct (format_duration_seconds ms) as (h & Hh & Hd & ->); [lia|].
    by replace h with 6000 by lia.
  - destruct (minutes_exact ms) as (h & Hh & Hd & ->); [lia|].
    by replace h with 6000 by lia.
Qed.

(** [format_duration_shows_sixty_seconds] one millisecond before two
    minutes. *)
Lemma format_duration_shows_sixty_seconds_witness :
  format_duration 119999 = Ok "1m 60.00s".
Proof.
  apply (format_duration_shows_sixty_seconds 119999); by vm_compute.
Defined.

(** ** The exceptions of the renderer *)

Lemma no_key_error_bind {A B} (r : result A) (f : A → result B) :
  no_key_error r → (∀ a, r = Ok a → no_key_error (f a)) → no_key_error (r ≫= f).
Proof.
  destruct r as [a|e]; intros Hr Hf; [by apply Hf|].
  intros E. apply Hr. by injection E as ->.
Qed.

Lemma no_key_error_py_get v k d : no_key_error (py_get v k d).
Proof. by destruct v. Qed.

Lemma no_key_error_py_sub a b : no_key_error (py_sub a b).
Proof. by destruct a as [|[]| | | |], b as [|[]| | | |]. Qed.

Lemma no_key_error_py_iter v : no_key_error (py_iter v).
Proof. by destruct v. Qed.

Lemma no_key_error_py_find d k : no_key_error (py_find d k).
Proof. by destruct k. Qed.

Lemma no_key_error_format_duration d : no_key_error (format_duration d).
Proof.
  destruct (format_duration_domain d) as [Hlt Hge].
  destruct (Z.lt_ge_cases d overflow_threshold) as [H|H].
  - by destruct (Hlt H) as [s ->].
  - by rewrite (Hge H).
Qed.

Lemma no_key_error_for_html {A} (f : A → result string) xs :
  (∀ x, no_key_error (f x)) → no_key_error (for_html f xs).
Proof.
  intros Hf. induction xs as [|x xs IH]; [done|]. simpl.
  apply no_key_error_bind; [done|]. intros s _.
  apply no_key_error_bind; [done|]. done.
Qed.

Lemma no_key_error_for_enum {A} (f : nat → A → result string) xs : ∀ idx,
  (∀ i x, no_key_error (f i x)) → no_key_error (for_enum f idx xs).
Proof.
  induction xs as [|x xs IH]; intros idx Hf; [done|]. simpl.
  apply no_key_error_bind; [done|]. intros s _.
  apply no_key_error_bind; [by apply IH|]. done.
Qed.

Lemma no_key_error_mapM {A B} (f : A → result B) xs :
  (∀ x, no_key_error (f x)) → no_key_error (mapM f xs).
Proof.
  intros Hf. induction xs as [|x xs IH]; [done|]. simpl.
  apply no_key_error_bind; [done|]. intros b _.
  apply no_key_error_bind; [done|]. done.
Qed.

(** One step of a chain of operations none of which is a [KeyError]. *)
Ltac no_key_error_step :=
  first
    [ apply no_key_error_py_get | apply no_key_error_py_sub
    | apply no_key_error_py_iter | apply no_key_error_py_find
    | apply no_key_error_format_duration
    | apply no_key_error_bind; [|intros ? _] ].

Lemma no_key_error_duration_of r : no_key_error (duration_of r).
Proof. unfold duration_of. repeat no_key_error_step. Qed.

Lemma no_key_error_sort_key r : no_key_error (sort_key r).
Proof. unfold sort_key. repeat no_key_error_step. done. Qed.

Section Exceptions.
Variable str_lower : string → string.
Variable container_str : json → string.

Lemma no_key_error_py_lower v : no_key_error (py_lower str_lower v).
Proof. by destruct v. Qed.

Lemma no_key_error_render_labels v : no_key_error (render_labels container_str v).
Proof.
  unfold render_labels. destruct (truthy v); [|done].
  repeat no_key_error_step; [|done].
  apply no_key_error_for_html. intros x. unfold render_label.
  repeat no_key_error_step. done.
Qed.

Lemma no_key_error_render_steps v : no_key_error (render_steps container_str v).
Proof.
  unfold render_steps. destruct (truthy v); [|done].
  repeat no_key_error_step; [|done].
  apply no_key_error_for_html. intros x. unfold render_step.
  repeat no_key_error_step. done.
Qed.

Lemma no_key_error_render_attachments self v :
  no_key_error (render_attachments container_str self v).
Proof.
  unfold render_attachments. destruct (truthy v); [|done].
  repeat no_key_error_step; [|done].
  apply no_key_error_for_html. intros x. unfold render_attachment.
  repeat no_key_error_step. by case_match.
Qed.

Lemma no_key_error_render_card self idx r :
  no_key_error (render_card str_lower container_str self idx r).
Proof.
  unfold render_card.
  repeat first
    [ apply no_key_error_py_lower | apply no_key_error_duration_of
    | apply no_key_error_render_labels | apply no_key_error_render_steps
    | apply no_key_error_render_attachments | no_key_error_step ].
  done.
Qed.

Lemma no_key_error_generate_html self now :
  no_key_error (generate_html str_lower container_str self now).
Proof.
  unfold generate_html, get_statistics.
  destruct (decide (Forall (λ r, is_Some (status_key str_lower r)) (results self)))
    as [H|H].
  - destruct (count_results_exact str_lower (results self) initial_stats 0 eq_refl H)
      as (stats & -> & _ & Ht & Hdom).
    rewrite bind_Ok.
    apply no_key_error_bind.
    { unfold total_duration_of. apply no_key_error_bind; [|done].
      apply no_key_error_mapM, no_key_error_duration_of. }
    intros total_duration _.
    apply no_key_error_bind.
    { unfold sorted. apply no_key_error_bind; [|done].
      apply no_key_error_mapM, no_key_error_sort_key. }
    intros l _.
    assert (∀ k, is_Some (initial_stats !! k) → ∃ n, py_item stats k = Ok n) as Hk.
    { intros k Hi. unfold py_item.
      destruct (proj2 (Hdom k) (or_introl Hi)) as [n ->]. by exists n. }
    destruct (Hk "total") as [total ->]; [by eexists|].
    destruct (Hk "passed") as [passed ->]; [by eexists|].
    destruct (Hk "failed") as [failed ->]; [by eexists|].
    destruct (Hk "skipped") as [skipped ->]; [by eexists|].
    rewrite !bind_Ok.
    apply no_key_error_bind; [apply no_key_error_format_duration|]. intros dt _.
    apply no_key_error_bind; [|done].
    apply no_key_error_for_enum. intros i x. apply no_key_error_render_card.
  - rewrite count_results_raises; [done|by eexists|done].
Qed.

(** X13: [generate_html] never raises a [KeyError]: whatever keys the
    records hold or lack, the counters it reads are there. *)
Theorem generate_html_never_raises_key_error self now e :
  generate_html str_lower container_str self now = Raise e → e ≠ KeyError.
Proof.
  intros H ->. by apply (no_key_error_generate_html self now).
Qed.
End Exceptions.

(** [generate_html_never_raises_key_error] on a result that is no dict. *)
Lemma generate_html_never_raises_key_error_witness :
  generate_html ascii_lower no_container_str (gen_of [JNull] ∅) noon
  = Raise AttributeError
  ∧ AttributeError ≠ KeyError.
Proof.
  assert (generate_html ascii_lower no_container_str (gen_of [JNull] ∅) noon
          = Raise AttributeError) as H by reflexivity.
  split; [exact H|].
  exact (generate_html_never_raises_key_error ascii_lower no_container_str
           (gen_of [JNull] ∅) noon AttributeError H).
Defined.

(** ** Examples of the statistics, the display order and the document *)

(** [get_statistics_counts] on [three_results]: two are counted as failed,
    the total is three. *)
Lemma get_statistics_counts_witness :
  ∃ stats,
    get_statistics ascii_lower (gen_of three_results ∅) = Ok stats
    ∧ default 0 (stats !! "failed") = 2
    ∧ stats !! "total" = Some 3.
Proof.
  assert (Forall (λ r, is_Some (status_key ascii_lower r))
            (results (gen_of three_results ∅))) as H
    by (repeat (constructor; [by eexists|]); constructor).
  destruct (get_statistics_counts ascii_lower (gen_of three_results ∅) H)
    as (stats & E & Hk & Ht & _).
  exists stats. split; [exact E|]. split.
  - rewrite (Hk "failed") by done. reflexivity.
  - rewrite Ht. reflexivity.
Defined.

(** [get_statistics_order_independent] on [three_results] and their display
    order. *)
Lemma get_statistics_order_independent_witness :
  get_statistics ascii_lower (gen_of three_results ∅)
  = get_statistics ascii_lower (gen_of three_results_sorted ∅).
Proof.
  apply (get_statistics_order_independent ascii_lower
           (gen_of three_results ∅) (gen_of three_results_sorted ∅)).
  unfold three_results, three_results_sorted. simpl.
  rewrite (Permutation_swap (with_status "passed")).
  apply Permutation_skip, Permutation_swap.
Defined.

(** [display_order_is_permutation] on [three_results]. *)
Lemma display_order_is_permutation_witness :
  three_results_sorted ≡ₚ three_results
  ∧ length three_results_sorted = length three_results.
Proof.
  apply (display_order_is_permutation three_results three_results_sorted).
  reflexivity.
Defined.

(** [display_order_is_idempotent] on [three_results]. *)
Lemma display_order_is_idempotent_witness :
  sorted sort_key three_results_sorted = Ok three_results_sorted.
Proof.
  apply (display_order_is_idempotent three_results three_results_sorted).
  reflexivity.
Defined.

(** [document_is_top_cards_tail] on [three_results]: the document has three
    cards between its top and its tail. *)
Lemma document_is_top_cards_tail_witness :
  ∃ doc top texts,
    generate_html ascii_lower no_container_str (gen_of three_results ∅) noon = Ok doc
    ∧ length texts = 3%nat
    ∧ doc = top +:+ joined texts +:+ document_tail.
Proof.
  destruct (generate_html_total ascii_lower no_container_str
              (gen_of three_results ∅) noon eq_refl eq_refl) as [doc E].
  destruct (document_is_top_cards_tail ascii_lower no_container_str
              (gen_of three_results ∅) noon doc E)
    as (stats & total & passed & failed & skipped & td & dt & l & texts
        & _ & _ & _ & _ & _ & _ & _ & _ & Hlen & _ & Hdoc).
  exists doc, (document_top noon total passed failed skipped dt), texts.
  split; [exact E|]. split; [exact Hlen|exact Hdoc].
Defined.


(** [text_fields_are_not_escaped] on a result whose name holds markup. *)
Lemma text_fields_are_not_escaped_witness :
  ∃ doc,
    generate_html ascii_lower no_container_str (gen_of [JObj markup_fields] ∅) noon
    = Ok doc
    ∧ occurs "<b>bold</b>" doc = true.
Proof.
  destruct (generate_html_total ascii_lower no_container_str
              (gen_of [JObj markup_fields] ∅) noon eq_refl eq_refl) as [doc E].
  exists doc. split; [exact E|].
  apply (text_fields_are_not_escaped ascii_lower no_container_str
           (gen_of [JObj markup_fields] ∅) noon doc markup_fields
           "<b>bold</b>" "<b>bold</b>" E).
  - apply list_elem_of_here.
  - apply list_elem_of_here.
  - reflexivity.
Defined.

(** ** The summary and the first failure *)

(** A loop body that raises nothing but [e] makes [mapM] raise [e] as soon
    as it does not return for some element. *)
Lemma mapM_raises {A B} (f : A → result B) (e : exn) xs :
  Forall (λ x, ∀ e', f x = Raise e' → e' = e) xs →
  ¬ Forall (λ x, returns (f x) = true) xs →
  mapM f xs = Raise e.
Proof.
  induction xs as [|x xs IH]; intros He Hbad.
  - destruct Hbad. constructor.
  - apply Forall_cons in He as [Hx He].
    change (mapM f (x :: xs)) with (f x ≫= λ y, mapM f xs ≫= λ k, Ok (y :: k)).
    destruct (f x) as [y|e'] eqn:Ey; [|by rewrite (Hx e' eq_refl)].
    rewrite bind_Ok, IH; [done|done|].
    intros Hall. apply Hbad. constructor; [by rewrite Ey|done].
Qed.

Section Summary.
Variable str_lower : string → string.
Variable container_str : json → string.

Lemma status_key_obj r :
  is_Some (status_key str_lower r) → ∃ kvs, r = JObj kvs.
Proof. destruct r; try (by intros [? ?]). by eexists. Qed.

Lemma get_statistics_ok self stats :
  get_statistics str_lower self = Ok stats →
  Forall (λ r, is_Some (status_key str_lower r)) (results self).
Proof.
  intros H.
  destruct (decide (Forall (λ r, is_Some (status_key str_lower r)) (results self)))
    as [|Hbad]; [done|].
  unfold get_statistics in H.
  rewrite count_results_raises in H; [done|by eexists|done].
Qed.

(** X14: the summary of a document that [generate_html] returns shows, as
    the total, the number of results plus the number of those whose status
    lower-cases to the key of the total, as passed, failed and skipped the
    numbers of results with those lower-cased statuses, and as duration the
    text of the sum of the durations. *)
Theorem summary_shows_exact_counts self now doc :
  generate_html str_lower container_str self now = Ok doc →
  ∃ total_duration duration_text cards,
    total_duration_of (results self) = Ok total_duration
    ∧ format_duration total_duration = Ok duration_text
    ∧ doc
      = document_top now
          (Z.of_nat (length (results self))
           + count_key str_lower "total" (results self))
          (count_key str_lower "passed" (results self))
          (count_key str_lower "failed" (results self))
          (count_key str_lower "skipped" (results self))
          duration_text
        +:+ cards +:+ document_tail.
Proof.
  intros H.
  apply generate_html_parts in H
    as (stats & total & passed & failed & skipped & td & dt & l & texts
        & Hs & Ht & Hp & Hf & Hk & Htd & Hdt & _ & _ & ->).
  assert (Hall := get_statistics_ok _ _ Hs).
  destruct (count_results_exact str_lower (results self) initial_stats 0 eq_refl Hall)
    as (stats' & E & Hkeys & Htotal & _).
  unfold get_statistics in Hs. rewrite Hs in E. injection E as <-.
  exists td, dt, (joined texts).
  split; [done|]. split; [done|].
  rewrite Ht in Htotal. injection Htotal as ->.
  pose proof (Hkeys "passed" ltac:(done)) as H1. rewrite Hp in H1. simpl in H1.
  pose proof (Hkeys "failed" ltac:(done)) as H2. rewrite Hf in H2. simpl in H2.
  pose proof (Hkeys "skipped" ltac:(done)) as H3. rewrite Hk in H3. simpl in H3.
  change (default 0 (initial_stats !! "passed")) with 0 in H1.
  change (default 0 (initial_stats !! "failed")) with 0 in H2.
  change (default 0 (initial_stats !! "skipped")) with 0 in H3.
  rewrite H1, H2, H3. rewrite !Z.add_0_l. done.
Qed.

Lemma duration_of_raises_type_error kvs e :
  duration_of (JObj kvs) = Raise e → e = TypeError.
Proof.
  unfold duration_of. rewrite !py_get_obj, !bind_Ok.
  destruct (default (JInt 0) (kvs !! "stop")) as [|[]| | | |],
           (default (JInt 0) (kvs !! "start")) as [|[]| | | |];
    cbv [py_sub py_int_operand mbind result_bind]; first [done|by intros [= <-]].
Qed.

(** X15: the first failure of [generate_html] is decided before any card is
    written: a result that is no dict, or whose status is no str, gives
    [AttributeError]; without such a result, one whose stop or start is no
    number gives [TypeError]; without either, a sum of the durations at or
    above the threshold of [format_duration] gives [OverflowError]. *)
Theorem generate_html_first_failure self now :
  (¬ Forall (λ r, is_Some (status_key str_lower r)) (results self) →
   generate_html str_lower container_str self now = Raise AttributeError)
  ∧ (Forall (λ r, is_Some (status_key str_lower r)) (results self) →
     ¬ Forall (λ r, numeric_times r = true) (results self) →
     generate_html str_lower container_str self now = Raise TypeError)
  ∧ (Forall (λ r, is_Some (status_key str_lower r)) (results self) →
     ∀ t, total_duration_of (results self) = Ok t → overflow_threshold ≤ t →
     generate_html str_lower container_str self now = Raise OverflowError).
Proof.
  split; [|split].
  - intros Hbad. unfold generate_html, get_statistics.
    by rewrite count_results_raises; [|by eexists|].
  - intros Hall Hbad. unfold generate_html, get_statistics.
    destruct (count_results_exact str_lower (results self) initial_stats 0 eq_refl Hall)
      as (stats & -> & _).
    rewrite bind_Ok. unfold total_duration_of.
    rewrite (mapM_raises duration_of TypeError); [done| |].
    + eapply Forall_impl; [exact Hall|]. intros r [kvs ->]%status_key_obj e.
      apply duration_of_raises_type_error.
    + intros Hret. apply Hbad. rewrite Forall_forall in Hall, Hret.
      apply Forall_forall. intros r Hr.
      destruct (status_key_obj r (Hall r Hr)) as [kvs ->].
      rewrite <- (Hret _ Hr). symmetry. apply duration_of_domain.
  - intros Hall t Et Hge. unfold generate_html, get_statistics.
    destruct (count_results_exact str_lower (results self) initial_stats 0 eq_refl Hall)
      as (stats & -> & _ & _ & Hdom).
    rewrite bind_Ok, Et, bind_Ok.
    destruct (sorted_returns sort_key (results self)) as (l & -> & _).
    { eapply Forall_impl; [exact Hall|]. intros r [kvs ->]%status_key_obj.
      by eexists. }
    rewrite bind_Ok. unfold py_item.
    destruct (proj2 (Hdom "total")) as [? ->]; [left; by eexists|]. rewrite bind_Ok.
    destruct (proj2 (Hdom "passed")) as [? ->]; [left; by eexists|]. rewrite bind_Ok.
    destruct (proj2 (Hdom "failed")) as [? ->]; [left; by eexists|]. rewrite bind_Ok.
    destruct (proj2 (Hdom "skipped")) as [? ->]; [left; by eexists|]. rewrite bind_Ok.
    destruct (format_duration_domain t) as [_ Hraise].
    by rewrite (Hraise Hge).
Qed.
End Summary.

(** [summary_shows_exact_counts] on [three_results]: a total of 3, of which
    1 passed and 2 failed, in no time. *)
Lemma summary_shows_exact_counts_witness :
  ∃ doc cards,
    generate_html ascii_lower no_container_str (gen_of three_results ∅) noon = Ok doc
    ∧ doc = document_top noon 3 1 2 0 "0ms" +:+ cards +:+ document_tail.
Proof.
  destruct (generate_html_total ascii_lower no_container_str
              (gen_of three_results ∅) noon eq_refl eq_refl) as [doc E].
  destruct (summary_shows_exact_counts ascii_lower no_container_str
              (gen_of three_results ∅) noon doc E)
    as (td & dt & cards & Etd & Edt & Hdoc).
  exists doc, cards. split; [exact E|].
  injection Etd as <-. injection Edt as <-. exact Hdoc.
Defined.

(** ** The status tables *)

Section StatusTables.
Variable str_lower : string → string.

(** X16: the two status tables agree: a status gets the icon of an unknown
    status exactly when it gets the colour of one, and that is exactly when
    its lower-cased form is none of passed, failed, broken and skipped. *)
Theorem status_tables_agree status :
  (get_status_icon str_lower status = "?"
   ↔ get_status_color str_lower status = "#607d8b")
  ∧ (get_status_icon str_lower status = "?" ↔ str_lower status ∉ known_statuses).
Proof.
  unfold get_status_icon, get_status_color, known_statuses.
  generalize (str_lower status). intros k.
  destruct (decide (k ∈ ["passed"; "failed"; "broken"; "skipped"])) as [Hin|Hout].
  - assert (default "?" (icons !! k) ≠ "?"
            ∧ default "#607d8b" (colors !! k) ≠ "#607d8b") as [Hi Hc].
    { repeat (apply elem_of_cons in Hin as [->|Hin]; [by split|]).
      by apply elem_of_nil in Hin. }
    split; split; intros H; done.
  - assert (default "?" (icons !! k) = "?"
            ∧ default "#607d8b" (colors !! k) = "#607d8b") as [-> ->]; [|done].
    unfold icons, colors. cbn [list_to_map foldr uncurry].
    rewrite !not_elem_of_cons in Hout. destruct Hout as (? & ? & ? & ? & _).
    rewrite !(lookup_insert_ne _ _ k) by done.
    destruct (decide (k = "unknown")) as [->|Hne]; [done|].
    rewrite !(lookup_insert_ne _ _ k) by done. done.
Qed.
End StatusTables.
